(** * Messenger_Design: the Cassandra models of the messenger backend

  A shallow embedding of [app/models/cassandra_models.py] (the classes
  [MessageModel] and [ConversationModel]), of the schema created by
  [scripts/setup_db.py] and of [generate_conversation_id] from
  [scripts/generate_test_data.py], followed by the properties of
  conversation identity, fan-out writes and pagination.

  Integers are Python [int]s ([Z]); a [datetime] is the number of
  microseconds since the epoch ([Z]); a nullable column is an [option]. *)

From stdpp Require Import gmap strings list fin_maps sorting pretty.

Open Scope Z_scope.

(** ** Python built-ins used by the models *)

Module Py.

(** What the interpreter supplies and the sources only call: the built-in
    [hash] on [str] (keyed per process) and the text that an f-string
    gives to the float [now.timestamp()]. *)
Record Runtime := {
  hash : string → Z;
  timestamp_text : Z → string
}.

(** [f"{a}:{b}"] and [f"{a}:{b}:{t}"] *)
Definition fmt2 (a b : Z) : string :=
  pretty a +:+ ":" +:+ pretty b.
Definition fmt3 (rt : Runtime) (a b now : Z) : string :=
  pretty a +:+ ":" +:+ pretty b +:+ ":" +:+ timestamp_text rt now.

(** An index of a slice, brought into [0 .. len] as [list.__getitem__]
    does for a slice of step 1. *)
Definition slice_index (len i : Z) : Z :=
  if i <? 0 then Z.max (i + len) 0 else Z.min i len.

(** [l[start:stop]] *)
Definition slice {A} (l : list A) (start stop : Z) : list A :=
  let len := Z.of_nat (length l) in
  let lo := slice_index len start in
  let hi := slice_index len stop in
  take (Z.to_nat (hi - lo)) (drop (Z.to_nat lo) l).

End Py.

(** ** The three tables of [create_tables] *)

(** [messages], PRIMARY KEY ((conversation_id), created_at, message_id),
  CLUSTERING ORDER BY (created_at DESC, message_id DESC).  A TIMEUUID is
  kept as an integer whose order is the store's order on TIMEUUIDs. *)
Module Messages.

Definition key : Type := Z * Z * Z.   (* conversation_id, created_at, message_id *)

Record columns := {
  col_sender_id : Z;
  col_receiver_id : Z;
  col_content : string
}.

Record row := {
  conversation_id : Z;
  message_id : Z;
  sender_id : Z;
  receiver_id : Z;
  content : string;
  created_at : Z
}.

Definition key_of (r : row) : key :=
  (conversation_id r, created_at r, message_id r).
Definition columns_of (r : row) : columns :=
  {| col_sender_id := sender_id r; col_receiver_id := receiver_id r;
     col_content := content r |}.
Definition row_of (kv : key * columns) : row :=
  let '((c, t, m), v) := kv in
  {| conversation_id := c; message_id := m; sender_id := col_sender_id v;
     receiver_id := col_receiver_id v; content := col_content v;
     created_at := t |}.

(** [r1] comes no later than [r2] in a partition. *)
Definition precedes (r1 r2 : row) : Prop :=
  created_at r2 < created_at r1
  ∨ (created_at r1 = created_at r2 ∧ message_id r2 ≤ message_id r1).

#[global] Instance messages_precedes_dec r1 r2 : Decision (precedes r1 r2).
Proof. unfold precedes. apply _. Defined.

End Messages.

(** [conversations_by_user], PRIMARY KEY ((user_id), last_message_at,
  conversation_id), CLUSTERING ORDER BY (last_message_at DESC,
  conversation_id ASC). *)
Module ConversationsByUser.

Definition key : Type := Z * Z * Z.   (* user_id, last_message_at, conversation_id *)

Record columns := {
  col_other_user_id : Z;
  col_last_message_content : string
}.

Record row := {
  user_id : Z;
  conversation_id : Z;
  other_user_id : Z;
  last_message_at : Z;
  last_message_content : string
}.

Definition key_of (r : row) : key :=
  (user_id r, last_message_at r, conversation_id r).
Definition columns_of (r : row) : columns :=
  {| col_other_user_id := other_user_id r;
     col_last_message_content := last_message_content r |}.
Definition row_of (kv : key * columns) : row :=
  let '((u, t, c), v) := kv in
  {| user_id := u; conversation_id := c;
     other_user_id := col_other_user_id v; last_message_at := t;
     last_message_content := col_last_message_content v |}.

Definition precedes (r1 r2 : row) : Prop :=
  last_message_at r2 < last_message_at r1
  ∨ (last_message_at r1 = last_message_at r2
     ∧ conversation_id r1 ≤ conversation_id r2).

#[global] Instance index_precedes_dec r1 r2 : Decision (precedes r1 r2).
Proof. unfold precedes. apply _. Defined.

End ConversationsByUser.

(** [conversations], PRIMARY KEY conversation_id; every other column is
  nullable (an UPDATE of an absent key writes a row holding only the
  assigned columns). *)
Module Conversations.

Record columns := {
  col_user1_id : option Z;
  col_user2_id : option Z;
  col_created_at : option Z;
  col_last_message_at : option Z;
  col_last_message_content : option string
}.

Record row := {
  conversation_id : Z;
  user1_id : option Z;
  user2_id : option Z;
  created_at : option Z;
  last_message_at : option Z;
  last_message_content : option string
}.

Definition columns_of (r : row) : columns :=
  {| col_user1_id := user1_id r; col_user2_id := user2_id r;
     col_created_at := created_at r;
     col_last_message_at := last_message_at r;
     col_last_message_content := last_message_content r |}.
Definition row_of (kv : Z * columns) : row :=
  {| conversation_id := kv.1; user1_id := col_user1_id kv.2;
     user2_id := col_user2_id kv.2; created_at := col_created_at kv.2;
     last_message_at := col_last_message_at kv.2;
     last_message_content := col_last_message_content kv.2 |}.

Definition no_columns : columns :=
  {| col_user1_id := None; col_user2_id := None; col_created_at := None;
     col_last_message_at := None; col_last_message_content := None |}.

End Conversations.


(** ** The store and the client that executes statements on it *)

Record Store := {
  messages : gmap Messages.key Messages.columns;
  conversations_by_user :
    gmap ConversationsByUser.key ConversationsByUser.columns;
  conversations : gmap Z Conversations.columns
}.

Definition empty_store : Store :=
  {| messages := ∅; conversations_by_user := ∅; conversations := ∅ |}.

(** The statements the models send, with their bound parameters. *)
Inductive Statement :=
| InsertMessage (r : Messages.row)
| UpdateConversation (last_message_at : Z) (last_message_content : string)
    (conversation_id : Z)
| InsertConversationByUser (r : ConversationsByUser.row)
| SelectMessages (conversation_id limit : Z)
| CountMessages (conversation_id : Z)
| SelectMessagesBefore (conversation_id before limit : Z)
| CountMessagesBefore (conversation_id before : Z)
| SelectConversationsByUser (user_id limit : Z)
| CountConversationsByUser (user_id : Z)
| SelectConversation (conversation_id : Z)
| SelectConversationByUsers (user1_id user2_id : Z)
| InsertConversation (r : Conversations.row).

(** [cassandra_client]: the tables and, oldest first, the statements
    executed so far. *)
Record Client := {
  store : Store;
  executed : list Statement
}.

Definition connect (s : Store) : Client := {| store := s; executed := [] |}.

(** A computation that talks to the client. *)
Definition M (A : Type) : Type := Client → A * Client.

Definition ret {A} (a : A) : M A := λ c, (a, c).
Definition bind {A B} (m : M A) (k : A → M B) : M B :=
  λ c, let '(a, c') := m c in k a c'.

Declare Scope client_scope.
Delimit Scope client_scope with client.
Notation "'let*' x ':=' m 'in' k" := (bind m (λ x, k))
  (at level 10, x pattern, m at level 100, k at level 200) : client_scope.
Notation "m ';;' k" := (bind m (λ _, k))
  (at level 100, k at level 200, right associativity) : client_scope.

(** ** What each statement does

    [cassandra_client.execute(query, params)], one definition for each
    query text of the models.  The Connection Gateway
    ([app/db/cassandra_client.py]) is not among the sources; what it does
    with a statement is read off the statement's CQL text and the schema of
    [create_tables]. *)
Module Cassandra.

(** Modelled from the spec: the gateway "executes parameterized statements
    against the store"; every execution is recorded, then reads or changes
    the tables. *)
Definition log (q : Statement) : M unit :=
  λ c, (tt, {| store := store c; executed := executed c ++ [q] |}).
Definition read {A} (f : Store → A) : M A := λ c, (f (store c), c).
Definition write (f : Store → Store) : M unit :=
  λ c, (tt, {| store := f (store c); executed := executed c |}).

(** Modelled from the spec: [LIMIT n] makes the read "over-fetch" the first
    [n] rows of the partition.  What the store answers when [n] is not
    positive is in neither the sources nor the spec; no row is taken
    here. *)
Definition limit_rows {A} (n : Z) (rows : list A) : list A :=
  take (Z.to_nat n) rows.

(** Modelled from the spec: the rows of one partition of [messages],
    "clustered by time descending then message id descending". *)
Definition messages_of (s : Store) (conversation_id : Z)
  : list Messages.row :=
  merge_sort Messages.precedes
    (filter (λ r, Messages.conversation_id r = conversation_id)
       (Messages.row_of <$> map_to_list (messages s))).

(** Modelled from the spec: the rows of one partition of
    [conversations_by_user], "clustered by last-message-time descending
    then conversation id". *)
Definition conversations_of (s : Store) (user_id : Z)
  : list ConversationsByUser.row :=
  merge_sort ConversationsByUser.precedes
    (filter (λ r, ConversationsByUser.user_id r = user_id)
       (ConversationsByUser.row_of <$> map_to_list (conversations_by_user s))).

(** Modelled from the spec: all rows of [conversations], "keyed by
    conversation id alone", in the order a table scan meets them. *)
Definition scan_conversations (s : Store) : list Conversations.row :=
  Conversations.row_of <$> map_to_list (conversations s).

(** Modelled from the spec: an INSERT writes its row at the row's primary
    key, replacing what that key held. *)
Definition put_message (r : Messages.row) (s : Store) : Store :=
  {| messages := <[Messages.key_of r := Messages.columns_of r]> (messages s);
     conversations_by_user := conversations_by_user s;
     conversations := conversations s |}.

(** Modelled from the spec: the UPDATE of the "denormalized summary" sets
    the two summary columns of the row at [conversation_id] and keeps its
    other columns (null ones when the key held no row). *)
Definition set_summary (last_message_at : Z) (last_message_content : string)
    (conversation_id : Z) (s : Store) : Store :=
  let old := default Conversations.no_columns
               (conversations s !! conversation_id) in
  {| messages := messages s;
     conversations_by_user := conversations_by_user s;
     conversations :=
       <[conversation_id :=
           {| Conversations.col_user1_id := Conversations.col_user1_id old;
              Conversations.col_user2_id := Conversations.col_user2_id old;
              Conversations.col_created_at := Conversations.col_created_at old;
              Conversations.col_last_message_at := Some last_message_at;
              Conversations.col_last_message_content :=
                Some last_message_content |}]> (conversations s) |}.

Definition put_conversation_by_user (r : ConversationsByUser.row)
    (s : Store) : Store :=
  {| messages := messages s;
     conversations_by_user :=
       <[ConversationsByUser.key_of r := ConversationsByUser.columns_of r]>
         (conversations_by_user s);
     conversations := conversations s |}.

Definition put_conversation (r : Conversations.row) (s : Store) : Store :=
  {| messages := messages s;
     conversations_by_user := conversations_by_user s;
     conversations :=
       <[Conversations.conversation_id r := Conversations.columns_of r]>
         (conversations s) |}.

(** Modelled from the spec: the "lookup by pair", the rows a scan keeps for
    [user1_id = %s AND user2_id = %s ALLOW FILTERING]. *)
Definition rows_for_pair (s : Store) (user1_id user2_id : Z)
  : list Conversations.row :=
  filter (λ r, Conversations.user1_id r = Some user1_id
               ∧ Conversations.user2_id r = Some user2_id)
    (scan_conversations s).

(** The statements of the models. *)
Definition insert_message (r : Messages.row) : M unit :=
  (log (InsertMessage r) ;; write (put_message r))%client.

Definition update_conversation (last_message_at : Z)
    (last_message_content : string) (conversation_id : Z) : M unit :=
  (log (UpdateConversation last_message_at last_message_content
          conversation_id) ;;
   write (set_summary last_message_at last_message_content
            conversation_id))%client.

Definition insert_conversation_by_user (r : ConversationsByUser.row)
  : M unit :=
  (log (InsertConversationByUser r) ;;
   write (put_conversation_by_user r))%client.

Definition insert_conversation (r : Conversations.row) : M unit :=
  (log (InsertConversation r) ;; write (put_conversation r))%client.

Definition select_messages (conversation_id limit : Z)
  : M (list Messages.row) :=
  (log (SelectMessages conversation_id limit) ;;
   read (λ s, limit_rows limit (messages_of s conversation_id)))%client.

Definition count_messages (conversation_id : Z) : M (list Z) :=
  (log (CountMessages conversation_id) ;;
   read (λ s, [Z.of_nat (length (messages_of s conversation_id))]))%client.

Definition select_messages_before (conversation_id before limit : Z)
  : M (list Messages.row) :=
  (log (SelectMessagesBefore conversation_id before limit) ;;
   read (λ s, limit_rows limit
                (filter (λ r, Messages.created_at r < before)
                   (messages_of s conversation_id))))%client.

Definition count_messages_before (conversation_id before : Z) : M (list Z) :=
  (log (CountMessagesBefore conversation_id before) ;;
   read (λ s, [Z.of_nat (length
                 (filter (λ r, Messages.created_at r < before)
                    (messages_of s conversation_id)))]))%client.

Definition select_conversations_by_user (user_id limit : Z)
  : M (list ConversationsByUser.row) :=
  (log (SelectConversationsByUser user_id limit) ;;
   read (λ s, limit_rows limit (conversations_of s user_id)))%client.

Definition count_conversations_by_user (user_id : Z) : M (list Z) :=
  (log (CountConversationsByUser user_id) ;;
   read (λ s, [Z.of_nat (length (conversations_of s user_id))]))%client.

Definition select_conversation (conversation_id : Z)
  : M (list Conversations.row) :=
  (log (SelectConversation conversation_id) ;;
   read (λ s, match conversations s !! conversation_id with
              | Some v => [Conversations.row_of (conversation_id, v)]
              | None => []
              end))%client.

Definition select_conversation_by_users (user1_id user2_id : Z)
  : M (list Conversations.row) :=
  (log (SelectConversationByUsers user1_id user2_id) ;;
   read (λ s, rows_for_pair s user1_id user2_id))%client.

End Cassandra.

(** ** The dictionaries the models return *)

(** The conversation dictionary of [get_conversation] and
    [create_or_get_conversation]. *)
Module Conversation.

Record t := {
  id : Z;
  user1_id : option Z;
  user2_id : option Z;
  created_at : option Z;
  last_message_at : option Z;
  last_message_content : option string
}.

Definition of_row (conversation : Conversations.row) : t :=
  {| id := Conversations.conversation_id conversation;
     user1_id := Conversations.user1_id conversation;
     user2_id := Conversations.user2_id conversation;
     created_at := Conversations.created_at conversation;
     last_message_at := Conversations.last_message_at conversation;
     last_message_content := Conversations.last_message_content conversation |}.

End Conversation.

(** The message dictionary of [create_message] and of the message pages;
    ["id"] is [str(message_id)], the one-to-one text of the identifier,
    kept here as the identifier. *)
Module Message.

Record t := {
  id : Z;
  sender_id : Z;
  receiver_id : Z;
  content : string;
  created_at : Z;
  conversation_id : Z
}.

Definition of_row (message : Messages.row) : t :=
  {| id := Messages.message_id message;
     sender_id := Messages.sender_id message;
     receiver_id := Messages.receiver_id message;
     content := Messages.content message;
     created_at := Messages.created_at message;
     conversation_id := Messages.conversation_id message |}.

End Message.

(** The dictionary of a paginated read. *)
Module Page.

Record t (A : Type) := {
  total : Z;
  page : Z;
  limit : Z;
  data : list A
}.
Arguments total {A} _.
Arguments page {A} _.
Arguments limit {A} _.
Arguments data {A} _.

End Page.

(** [count_result[0]["total"] if count_result else 0] *)
Definition total_of (count_result : list Z) : Z :=
  match count_result with
  | total :: _ => total
  | [] => 0
  end.

(** ** [scripts/generate_test_data.py] *)

Definition generate_conversation_id (rt : Py.Runtime) (user1_id user2_id : Z)
  : Z :=
  let lower_id := Z.min user1_id user2_id in
  let higher_id := Z.max user1_id user2_id in
  Z.abs (Py.hash rt (Py.fmt2 lower_id higher_id) `mod` 100000000).

(** ** [class ConversationModel] *)

Module ConversationModel.

(** The [print] of the summary goes to the standard output and is left
    out. *)
Definition get_conversation (conversation_id : Z)
  : M (option Conversation.t) :=
  (let* result := Cassandra.select_conversation conversation_id in
   match result with
   | [] => ret None
   | conversation :: _ => ret (Some (Conversation.of_row conversation))
   end)%client.

(** The identifier built on the creation path from the sorted pair and
    [now.timestamp()]. *)
Definition new_conversation_id (rt : Py.Runtime) (lower_id higher_id now : Z)
  : Z :=
  Z.abs (Py.hash rt (Py.fmt3 rt lower_id higher_id now) `mod` 100000000).

(** [now] is what [datetime.now()] reads on the creation path. *)
Definition create_or_get_conversation (rt : Py.Runtime) (now : Z)
    (user1_id user2_id : Z) : M Conversation.t :=
  let lower_id := Z.min user1_id user2_id in
  let higher_id := Z.max user1_id user2_id in
  (let* result :=
     Cassandra.select_conversation_by_users lower_id higher_id in
   match result with
   | conversation :: _ => ret (Conversation.of_row conversation)
   | [] =>
     let conversation_id := new_conversation_id rt lower_id higher_id now in
     Cassandra.insert_conversation
       {| Conversations.conversation_id := conversation_id;
          Conversations.user1_id := Some lower_id;
          Conversations.user2_id := Some higher_id;
          Conversations.created_at := Some now;
          Conversations.last_message_at := None;
          Conversations.last_message_content := None |} ;;
     ret {| Conversation.id := conversation_id;
            Conversation.user1_id := Some lower_id;
            Conversation.user2_id := Some higher_id;
            Conversation.created_at := Some now;
            Conversation.last_message_at := None;
            Conversation.last_message_content := None |}
   end)%client.

(** The loop of [get_user_conversations] over [conversations_raw]. *)
Fixpoint conversation_details (conversations_raw : list ConversationsByUser.row)
  : M (list Conversation.t) :=
  match conversations_raw with
  | [] => ret []
  | conv_raw :: rest =>
    (let* conv_details :=
       get_conversation (ConversationsByUser.conversation_id conv_raw) in
     let* conversations := conversation_details rest in
     match conv_details with
     | Some d =>
       ret ({| Conversation.id := Conversation.id d;
               Conversation.user1_id := Conversation.user1_id d;
               Conversation.user2_id := Conversation.user2_id d;
               Conversation.created_at := Conversation.created_at d;
               Conversation.last_message_at :=
                 Some (ConversationsByUser.last_message_at conv_raw);
               Conversation.last_message_content :=
                 Some (ConversationsByUser.last_message_content conv_raw) |}
            :: conversations)
     | None => ret conversations
     end)%client
  end.

Definition get_user_conversations (user_id page limit : Z)
  : M (Page.t Conversation.t) :=
  let offset := (page - 1) * limit in
  (let* result :=
     Cassandra.select_conversations_by_user user_id (limit + offset) in
   let conversations_raw := Py.slice result offset (offset + limit) in
   let* conversations := conversation_details conversations_raw in
   let* count_result := Cassandra.count_conversations_by_user user_id in
   let total := total_of count_result in
   ret {| Page.total := total; Page.page := page; Page.limit := limit;
          Page.data := conversations |})%client.

End ConversationModel.

(** ** [class MessageModel] *)

Module MessageModel.

Definition _update_conversation_for_user (user_id other_user_id
    conversation_id last_message_at : Z) (last_message_content : string)
  : M unit :=
  Cassandra.insert_conversation_by_user
    {| ConversationsByUser.user_id := user_id;
       ConversationsByUser.conversation_id := conversation_id;
       ConversationsByUser.other_user_id := other_user_id;
       ConversationsByUser.last_message_at := last_message_at;
       ConversationsByUser.last_message_content := last_message_content |}.

(** [message_id] is what [uuid.uuid1()] yields, [created_at] what the
    first [datetime.now()] reads, [now] what the one inside
    [create_or_get_conversation] reads. *)
Definition create_message (rt : Py.Runtime) (message_id created_at now : Z)
    (sender_id receiver_id : Z) (content : string) : M Message.t :=
  (let* conversation :=
     ConversationModel.create_or_get_conversation rt now
       sender_id receiver_id in
   let conversation_id := Conversation.id conversation in
   Cassandra.insert_message
     {| Messages.conversation_id := conversation_id;
        Messages.message_id := message_id;
        Messages.sender_id := sender_id;
        Messages.receiver_id := receiver_id;
        Messages.content := content;
        Messages.created_at := created_at |} ;;
   Cassandra.update_conversation created_at content conversation_id ;;
   _update_conversation_for_user sender_id receiver_id conversation_id
     created_at content ;;
   _update_conversation_for_user receiver_id sender_id conversation_id
     created_at content ;;
   ret {| Message.id := message_id;
          Message.sender_id := sender_id;
          Message.receiver_id := receiver_id;
          Message.content := content;
          Message.created_at := created_at;
          Message.conversation_id := conversation_id |})%client.

Definition get_conversation_messages (conversation_id page limit : Z)
  : M (Page.t Message.t) :=
  let offset := (page - 1) * limit in
  (let* result := Cassandra.select_messages conversation_id (limit + offset) in
   let messages := Py.slice result offset (offset + limit) in
   let formatted_messages := Message.of_row <$> messages in
   let* count_result := Cassandra.count_messages conversation_id in
   let total := total_of count_result in
   ret {| Page.total := total; Page.page := page; Page.limit := limit;
          Page.data := formatted_messages |})%client.

Definition get_messages_before_timestamp (conversation_id before_timestamp
    page limit : Z) : M (Page.t Message.t) :=
  let offset := (page - 1) * limit in
  (let* result :=
     Cassandra.select_messages_before conversation_id before_timestamp
       (limit + offset) in
   let messages := Py.slice result offset (offset + limit) in
   let formatted_messages := Message.of_row <$> messages in
   let* count_result :=
     Cassandra.count_messages_before conversation_id before_timestamp in
   let total := total_of count_result in
   ret {| Page.total := total; Page.page := page; Page.limit := limit;
          Page.data := formatted_messages |})%client.

End MessageModel.

(** ** A runtime to run the models on

    A stand-in for the interpreter's keyed [hash] (a base-31 polynomial over
    the characters, wrapped to 64 signed bits) and the text of
    [now.timestamp()] (seconds, a point, the microseconds without trailing
    zeros), used where a concrete run is evaluated. *)
Module Sample.

Definition wrap64 (x : Z) : Z := (x + 2 ^ 63) `mod` 2 ^ 64 - 2 ^ 63.

Fixpoint hash_from (h : Z) (s : string) : Z :=
  match s with
  | EmptyString => h
  | String a s' => hash_from (wrap64 (31 * h + Z.of_N (Ascii.N_of_ascii a))) s'
  end.

Definition hash (s : string) : Z := hash_from 7 s.

Fixpoint drop_zeros (ds : list Z) : list Z :=
  match ds with
  | 0 :: ds' => drop_zeros ds'
  | _ => ds
  end.

Definition fraction_text (micros : Z) : string :=
  let ds := (λ k, (micros `div` 10 ^ k) `mod` 10) <$> [5; 4; 3; 2; 1; 0] in
  match reverse (drop_zeros (reverse ds)) with
  | [] => "0"
  | kept => foldr (λ d acc, pretty d +:+ acc) "" kept
  end.

Definition timestamp_text (now : Z) : string :=
  pretty (now `div` 1000000) +:+ "." +:+ fraction_text (now `mod` 1000000).

Definition runtime : Py.Runtime :=
  {| Py.hash := hash; Py.timestamp_text := timestamp_text |}.

End Sample.

(** ** Runs *)

(** The client after some more statements. *)
Definition logged (qs : list Statement) (c : Client) : Client :=
  {| store := store c; executed := executed c ++ qs |}.

(** What the loop of [get_user_conversations] makes of one index row. *)
Definition details_of (s : Store) (conv_raw : ConversationsByUser.row)
  : option Conversation.t :=
  match conversations s !! ConversationsByUser.conversation_id conv_raw with
  | Some v =>
    Some {| Conversation.id := ConversationsByUser.conversation_id conv_raw;
            Conversation.user1_id := Conversations.col_user1_id v;
            Conversation.user2_id := Conversations.col_user2_id v;
            Conversation.created_at := Conversations.col_created_at v;
            Conversation.last_message_at :=
              Some (ConversationsByUser.last_message_at conv_raw);
            Conversation.last_message_content :=
              Some (ConversationsByUser.last_message_content conv_raw) |}
  | None => None
  end.

(** The row of a conversation made at [now]. *)
Definition new_row (rt : Py.Runtime) (lower_id higher_id now : Z)
  : Conversations.row :=
  {| Conversations.conversation_id :=
       ConversationModel.new_conversation_id rt lower_id higher_id now;
     Conversations.user1_id := Some lower_id;
     Conversations.user2_id := Some higher_id;
     Conversations.created_at := Some now;
     Conversations.last_message_at := None;
     Conversations.last_message_content := None |}.

(** The rows that [create_message] writes. *)
Definition sent_row (message_id created_at conversation_id sender_id
    receiver_id : Z) (content : string) : Messages.row :=
  {| Messages.conversation_id := conversation_id;
     Messages.message_id := message_id;
     Messages.sender_id := sender_id;
     Messages.receiver_id := receiver_id;
     Messages.content := content;
     Messages.created_at := created_at |}.

Definition index_row (user_id other_user_id conversation_id
    last_message_at : Z) (last_message_content : string)
  : ConversationsByUser.row :=
  {| ConversationsByUser.user_id := user_id;
     ConversationsByUser.conversation_id := conversation_id;
     ConversationsByUser.other_user_id := other_user_id;
     ConversationsByUser.last_message_at := last_message_at;
     ConversationsByUser.last_message_content := last_message_content |}.

(** The clients the models can bring about, starting on empty tables. *)
Inductive reachable (rt : Py.Runtime) : Client → Prop :=
| reachable_connect :
    reachable rt (connect empty_store)
| reachable_create_message c message_id created_at now sender_id receiver_id
    content :
    reachable rt c →
    reachable rt (MessageModel.create_message rt message_id created_at now
                    sender_id receiver_id content c).2
| reachable_create_or_get_conversation c now user1_id user2_id :
    reachable rt c →
    reachable rt (ConversationModel.create_or_get_conversation rt now
                    user1_id user2_id c).2
| reachable_get_conversation c conversation_id :
    reachable rt c →
    reachable rt (ConversationModel.get_conversation conversation_id c).2
| reachable_get_user_conversations c user_id page limit :
    reachable rt c →
    reachable rt (ConversationModel.get_user_conversations user_id page
                    limit c).2
| reachable_get_conversation_messages c conversation_id page limit :
    reachable rt c →
    reachable rt (MessageModel.get_conversation_messages conversation_id page
                    limit c).2
| reachable_get_messages_before_timestamp c conversation_id before page
    limit :
    reachable rt c →
    reachable rt (MessageModel.get_messages_before_timestamp conversation_id
                    before page limit c).2.

(** No two rows of [conversations] hold the same pair of users. *)
Definition pair_unique (s : Store) : Prop :=
  ∀ i j v w,
    conversations s !! i = Some v → conversations s !! j = Some w →
    is_Some (Conversations.col_user1_id v) →
    is_Some (Conversations.col_user2_id v) →
    Conversations.col_user1_id v = Conversations.col_user1_id w →
    Conversations.col_user2_id v = Conversations.col_user2_id w →
    i = j.

(** ** Runs to evaluate

    Users 1 and 2 exchange "hi", then "yo", on empty tables; the
    conversation gets the identifier 27948899. *)
Definition after_hi : Client :=
  (MessageModel.create_message Sample.runtime 900 1700000000000000
     1700000000000250 1 2 "hi" (connect empty_store)).2.

Definition hi_then_yo : Client :=
  (MessageModel.create_message Sample.runtime 901 1700000060000000
     1700000060000250 2 1 "yo" after_hi).2.

(** After "hi", user 1 sends "hello" to user 2 a minute later. *)
Definition hi_then_hello : Message.t * Client :=
  MessageModel.create_message Sample.runtime 901 1700000060000000
    1700000060000250 1 2 "hello" after_hi.

(** After "hi", an index row of user 1 for a conversation 7 that has no row
    in [conversations]. *)
Definition with_orphan : Client :=
  connect (Cassandra.put_conversation_by_user
             (index_row 1 3 7 1700000030000000 "hey") (store after_hi)).

Definition listed_before (m1 m2 : Message.t) : Prop :=
  Message.created_at m2 < Message.created_at m1
  ∨ (Message.created_at m1 = Message.created_at m2
     ∧ Message.id m2 < Message.id m1).

Definition no_older (d1 d2 : Conversation.t) : Prop :=
  match Conversation.last_message_at d1, Conversation.last_message_at d2 with
  | Some t1, Some t2 => t2 ≤ t1
  | _, _ => False
  end.

(** A runtime whose [hash] sends every key to 42, to evaluate runs in
    which two pairs get the same identifier. *)
Definition colliding_runtime : Py.Runtime :=
  {| Py.hash := λ _, 42; Py.timestamp_text := Sample.timestamp_text |}.

(** Every row of [conversations] holds an ordered pair of users and a
    creation time, and every index row names a conversation that has a
    row. *)
Definition well_formed (s : Store) : Prop :=
  (∀ i v, conversations s !! i = Some v →
          ∃ lower_id higher_id created_at,
            Conversations.col_user1_id v = Some lower_id
            ∧ Conversations.col_user2_id v = Some higher_id
            ∧ lower_id ≤ higher_id
            ∧ Conversations.col_created_at v = Some created_at)
  ∧ (∀ k v, conversations_by_user s !! k = Some v →
            is_Some (conversations s !! k.2)).

(** ** [app/controllers]

    The handlers answer with a response object or raise an
    [HTTPException].  The response classes of [app/schemas] are not among
    the sources: a response is taken to hold the fields it is built from.
    The handlers turn any other exception of the models into a 500; the
    models as embedded here raise none, so that branch is never entered. *)
Module Http.

Record HTTPException := {
  status_code : Z;
  detail : string
}.

Inductive outcome (A : Type) :=
| Returns (a : A)
| Raises (e : HTTPException).
Arguments Returns {A} _.
Arguments Raises {A} _.

End Http.

Module ConversationResponse.

Record t := {
  id : Z;
  user1_id : option Z;
  user2_id : option Z;
  last_message_at : option Z;
  last_message_content : option string
}.

End ConversationResponse.

Module MessageCreate.

Record t := {
  sender_id : Z;
  receiver_id : Z;
  content : string
}.

End MessageCreate.

(** [MessageResponse] has the fields of the message dictionary, and the
    paginated responses those of the page dictionary. *)
Module ConversationController.

Definition get_user_conversations (user_id page limit : Z)
  : M (Http.outcome (Page.t ConversationResponse.t)) :=
  (let* result :=
     ConversationModel.get_user_conversations user_id page limit in
   let conversations :=
     (λ conv,
        {| ConversationResponse.id := Conversation.id conv;
           ConversationResponse.user1_id := Conversation.user1_id conv;
           ConversationResponse.user2_id := Conversation.user2_id conv;
           ConversationResponse.last_message_at :=
             Conversation.last_message_at conv;
           ConversationResponse.last_message_content :=
             Conversation.last_message_content conv |})
       <$> Page.data result in
   ret (Http.Returns
          {| Page.total := Page.total result; Page.page := Page.page result;
             Page.limit := Page.limit result;
             Page.data := conversations |}))%client.

Definition get_conversation (conversation_id : Z)
  : M (Http.outcome ConversationResponse.t) :=
  (let* conversation := ConversationModel.get_conversation conversation_id in
   match conversation with
   | None =>
     ret (Http.Raises
            {| Http.status_code := 404;
               Http.detail := "Conversation with ID " +:+ pretty conversation_id
                              +:+ " not found" |})
   | Some conversation =>
     ret (Http.Returns
            {| ConversationResponse.id := Conversation.id conversation;
               ConversationResponse.user1_id :=
                 Conversation.user1_id conversation;
               ConversationResponse.user2_id :=
                 Conversation.user2_id conversation;
               ConversationResponse.last_message_at :=
                 Conversation.created_at conversation;
               ConversationResponse.last_message_content :=
                 Conversation.last_message_content conversation |})
   end)%client.

End ConversationController.

Module MessageController.

Definition message_response (msg : Message.t) : Message.t :=
  {| Message.id := Message.id msg; Message.content := Message.content msg;
     Message.sender_id := Message.sender_id msg;
     Message.receiver_id := Message.receiver_id msg;
     Message.created_at := Message.created_at msg;
     Message.conversation_id := Message.conversation_id msg |}.

Definition send_message (rt : Py.Runtime) (message_id created_at now : Z)
    (message_data : MessageCreate.t) : M (Http.outcome Message.t) :=
  (let* message :=
     MessageModel.create_message rt message_id created_at now
       (MessageCreate.sender_id message_data)
       (MessageCreate.receiver_id message_data)
       (MessageCreate.content message_data) in
   ret (Http.Returns (message_response message)))%client.

Definition get_conversation_messages (conversation_id page limit : Z)
  : M (Http.outcome (Page.t Message.t)) :=
  (let* result :=
     MessageModel.get_conversation_messages conversation_id page limit in
   let messages := message_response <$> Page.data result in
   ret (Http.Returns
          {| Page.total := Page.total result; Page.page := Page.page result;
             Page.limit := Page.limit result; Page.data := messages |}))%client.

Definition get_messages_before_timestamp (conversation_id before_timestamp
    page limit : Z) : M (Http.outcome (Page.t Message.t)) :=
  (let* result :=
     MessageModel.get_messages_before_timestamp conversation_id
       before_timestamp page limit in
   let messages := message_response <$> Page.data result in
   ret (Http.Returns
          {| Page.total := Page.total result; Page.page := Page.page result;
             Page.limit := Page.limit result; Page.data := messages |}))%client.

End MessageController.

(** ** [scripts/setup_db.py] *)
Module SetupDb.

(** [wait_for_cassandra]: [connects attempt] tells whether
    [Cluster(...).connect()] succeeds at that attempt; the result is the
    cluster of the attempt that succeeded, or the exception raised after
    the last one, with the seconds spent in [time.sleep]. *)
Inductive waited :=
| Ready (attempt : nat)
| NotReady (error : string).

Fixpoint wait_from (connects : nat → bool) (attempt remaining : nat)
    (slept : Z) : waited * Z :=
  match remaining with
  | O => (NotReady "Could not connect to Cassandra", slept)
  | S remaining' =>
    if connects attempt then (Ready attempt, slept)
    else wait_from connects (S attempt) remaining' (slept + 5)
  end.

Definition wait_for_cassandra (connects : nat → bool) : waited * Z :=
  wait_from connects 0 10 0.

(** The schema statements act on the keyspaces of the cluster. *)
Inductive cql_type := INT | TIMEUUID | TEXT | TIMESTAMP.
Inductive clustering_order := ASC | DESC.

Record table := {
  columns : list (string * cql_type);
  partition_key : list string;
  clustering : list (string * clustering_order)
}.

Record keyspace := {
  replication_class : string;
  replication_factor : Z;
  tables : gmap string table
}.

(** [CREATE KEYSPACE IF NOT EXISTS] *)
Definition create_keyspace (name : string) (db : gmap string keyspace)
  : gmap string keyspace :=
  match db !! name with
  | Some _ => db
  | None =>
    <[name := {| replication_class := "SimpleStrategy";
                 replication_factor := 3; tables := ∅ |}]> db
  end.

(** [CREATE TABLE IF NOT EXISTS] *)
Definition create_table (name : string) (t : table)
    (ts : gmap string table) : gmap string table :=
  match ts !! name with
  | Some _ => ts
  | None => <[name := t]> ts
  end.

Definition messages_table : table :=
  {| columns := [("conversation_id", INT); ("message_id", TIMEUUID);
                 ("sender_id", INT); ("receiver_id", INT);
                 ("content", TEXT); ("created_at", TIMESTAMP)];
     partition_key := ["conversation_id"];
     clustering := [("created_at", DESC); ("message_id", DESC)] |}.

Definition conversations_by_user_table : table :=
  {| columns := [("user_id", INT); ("conversation_id", INT);
                 ("other_user_id", INT); ("last_message_at", TIMESTAMP);
                 ("last_message_content", TEXT)];
     partition_key := ["user_id"];
     clustering := [("last_message_at", DESC); ("conversation_id", ASC)] |}.

Definition conversations_table : table :=
  {| columns := [("conversation_id", INT); ("user1_id", INT);
                 ("user2_id", INT); ("created_at", TIMESTAMP);
                 ("last_message_at", TIMESTAMP);
                 ("last_message_content", TEXT)];
     partition_key := ["conversation_id"];
     clustering := [] |}.

Definition create_tables (ts : gmap string table) : gmap string table :=
  create_table "conversations" conversations_table
    (create_table "conversations_by_user" conversations_by_user_table
       (create_table "messages" messages_table ts)).

(** What [main] does to the cluster between [connect] and [shutdown]:
    [create_keyspace], [set_keyspace], [create_tables]. *)
Definition initialize (name : string) (db : gmap string keyspace)
  : gmap string keyspace :=
  alter (λ ks, {| replication_class := replication_class ks;
                  replication_factor := replication_factor ks;
                  tables := create_tables (tables ks) |})
    name (create_keyspace name db).

End SetupDb.

(** [generate_test_data], steps 2 and 3: the conversation recorded for a
    picked pair of users, with the creation time drawn for it, and the
    INSERT of its row. *)
Definition test_conversation (rt : Py.Runtime) (user1_id user2_id
    created_at : Z) : Conversations.row :=
  {| Conversations.conversation_id :=
       generate_conversation_id rt user1_id user2_id;
     Conversations.user1_id := Some (Z.min user1_id user2_id);
     Conversations.user2_id := Some (Z.max user1_id user2_id);
     Conversations.created_at := Some created_at;
     Conversations.last_message_at := None;
     Conversations.last_message_content := None |}.

Definition insert_test_conversation (rt : Py.Runtime) (user1_id user2_id
    created_at : Z) : M unit :=
  Cassandra.insert_conversation
    (test_conversation rt user1_id user2_id created_at).

(** * Properties *)

(** ** Slices *)

Section slice_facts.
Context {A : Type}.
Implicit Types l : list A.

Lemma slice_sublist l a b : Py.slice l a b `sublist_of` l.
Proof.
  unfold Py.slice. etrans; [apply sublist_take | apply sublist_drop].
Qed.

Lemma slice_elem_of l a b x : x ∈ Py.slice l a b → x ∈ l.
Proof. intros Hx. eapply elem_of_sublist; [exact Hx | apply slice_sublist]. Qed.

Lemma slice_nil a b : Py.slice (@nil A) a b = [].
Proof. unfold Py.slice. by rewrite drop_nil, take_nil. Qed.

(** With a start and a width that are not negative, a slice is the usual
    "skip, then keep". *)
Lemma slice_nonneg l a n :
  0 ≤ a → 0 ≤ n →
  Py.slice l a (a + n) = take (Z.to_nat n) (drop (Z.to_nat a) l).
Proof.
  intros Ha Hn. unfold Py.slice, Py.slice_index.
  destruct (Z.ltb_spec a 0) as [?|_]; [lia|].
  destruct (Z.ltb_spec (a + n) 0) as [?|_]; [lia|].
  set (len := Z.of_nat (length l)).
  destruct (decide (len ≤ a)) as [Hge|Hlt].
  - rewrite (drop_ge l (Z.to_nat a)) by lia.
    rewrite (drop_ge l (Z.to_nat (a `min` len))) by lia.
    by rewrite !take_nil.
  - replace (a `min` len) with a by lia.
    destruct (decide (n ≤ len - a)).
    + f_equal. lia.
    + rewrite !take_ge; [done | rewrite length_drop; lia ..].
Qed.

End slice_facts.

Section omap_facts.
Context {A B : Type} (f : A → option B).

Lemma omap_length_le (l : list A) : (length (omap f l) ≤ length l)%nat.
Proof. induction l as [|x l IH]; cbn; [done|]. destruct (f x); cbn; lia. Qed.

Lemma omap_length_lt (l : list A) x :
  x ∈ l → f x = None → (length (omap f l) < length l)%nat.
Proof.
  intros Hin Hx. induction Hin as [x l|x y l Hin IH]; cbn.
  - rewrite Hx. apply Nat.lt_succ_r, omap_length_le.
  - specialize (IH Hx). destruct (f y); cbn; lia.
Qed.

End omap_facts.


(** ** Pages: the slice of an over-fetched prefix *)

Section page_facts.
Context {A : Type}.
Implicit Types l : list A.

Lemma page_slice l page limit :
  1 ≤ page →
  Py.slice (Cassandra.limit_rows (limit + (page - 1) * limit) l)
    ((page - 1) * limit) ((page - 1) * limit + limit)
  = take (Z.to_nat limit) (drop (Z.to_nat ((page - 1) * limit))
      (Cassandra.limit_rows (limit + (page - 1) * limit) l)).
Proof.
  intros Hpage. destruct (decide (0 ≤ limit)) as [Hl|Hl].
  - apply slice_nonneg; nia.
  - unfold Cassandra.limit_rows.
    replace (Z.to_nat (limit + (page - 1) * limit)) with 0%nat by nia.
    by rewrite take_0, slice_nil, drop_nil, take_nil.
Qed.

Lemma page_slice_inhabited l page limit x :
  x ∈ Py.slice (Cassandra.limit_rows (limit + (page - 1) * limit) l)
        ((page - 1) * limit) ((page - 1) * limit + limit) →
  1 ≤ page ∧ 1 ≤ limit.
Proof.
  unfold Cassandra.limit_rows. intros Hx.
  destruct (decide (limit + (page - 1) * limit ≤ 0)) as [Hle|Hgt].
  { replace (Z.to_nat (limit + (page - 1) * limit)) with 0%nat in Hx by lia.
    rewrite take_0, slice_nil in Hx. by apply not_elem_of_nil in Hx. }
  assert (0 < page * limit) as Hpos by lia.
  destruct (decide (1 ≤ limit)) as [Hl|Hl].
  { split; [|done]. destruct (decide (1 ≤ page)); [done|].
    assert (page * limit ≤ 0) by (apply Z.mul_nonpos_nonneg; lia). lia. }
  exfalso.
  assert (limit ≤ -1) as Hn.
  { destruct (decide (limit = 0)) as [->|]; lia. }
  assert (page ≤ -1) as Hp.
  { destruct (decide (page ≤ -1)); [done|].
    assert (page * limit ≤ 0) by (apply Z.mul_nonneg_nonpos; lia). lia. }
  revert Hx. unfold Py.slice, Py.slice_index.
  set (l' := take _ l).
  assert (Z.of_nat (length l') ≤ limit + (page - 1) * limit) as Hlen.
  { unfold l'. rewrite length_take. lia. }
  destruct (Z.ltb_spec ((page - 1) * limit) 0) as [?|_]; [nia|].
  destruct (Z.ltb_spec ((page - 1) * limit + limit) 0) as [?|_]; [nia|].
  replace (Z.to_nat _) with 0%nat by lia.
  rewrite take_0. apply not_elem_of_nil.
Qed.

End page_facts.

(** ** The tables as lists of rows *)

#[global] Instance messages_precedes_total : Total Messages.precedes.
Proof. intros r1 r2. unfold Messages.precedes. lia. Qed.
#[global] Instance conversations_by_user_precedes_total :
  Total ConversationsByUser.precedes.
Proof. intros r1 r2. unfold ConversationsByUser.precedes. lia. Qed.

Lemma messages_of_sorted s conversation_id :
  Sorted Messages.precedes (Cassandra.messages_of s conversation_id).
Proof. apply (Sorted_merge_sort _). Qed.

Lemma elem_of_messages_of s conversation_id r :
  r ∈ Cassandra.messages_of s conversation_id ↔
  messages s !! Messages.key_of r = Some (Messages.columns_of r)
  ∧ Messages.conversation_id r = conversation_id.
Proof.
  unfold Cassandra.messages_of.
  rewrite merge_sort_Permutation, list_elem_of_filter, list_elem_of_fmap.
  split.
  - intros [Hc ([[[c t] m] v] & -> & Hin)].
    apply elem_of_map_to_list in Hin. by destruct v.
  - intros [Hlook Hc]. split; [done|].
    exists (Messages.key_of r, Messages.columns_of r).
    split; [by destruct r | by apply elem_of_map_to_list].
Qed.

Lemma conversations_of_sorted s user_id :
  Sorted ConversationsByUser.precedes (Cassandra.conversations_of s user_id).
Proof. apply (Sorted_merge_sort _). Qed.

Lemma elem_of_conversations_of s user_id r :
  r ∈ Cassandra.conversations_of s user_id ↔
  conversations_by_user s !! ConversationsByUser.key_of r
    = Some (ConversationsByUser.columns_of r)
  ∧ ConversationsByUser.user_id r = user_id.
Proof.
  unfold Cassandra.conversations_of.
  rewrite merge_sort_Permutation, list_elem_of_filter, list_elem_of_fmap.
  split.
  - intros [Hc ([[[u t] c] v] & -> & Hin)].
    apply elem_of_map_to_list in Hin. by destruct v.
  - intros [Hlook Hc]. split; [done|].
    exists (ConversationsByUser.key_of r, ConversationsByUser.columns_of r).
    split; [by destruct r | by apply elem_of_map_to_list].
Qed.

Lemma elem_of_scan_conversations s r :
  r ∈ Cassandra.scan_conversations s ↔
  conversations s !! Conversations.conversation_id r
    = Some (Conversations.columns_of r).
Proof.
  unfold Cassandra.scan_conversations. rewrite list_elem_of_fmap. split.
  - intros ([i v] & -> & Hin). apply elem_of_map_to_list in Hin.
    by destruct v.
  - intros Hlook.
    exists (Conversations.conversation_id r, Conversations.columns_of r).
    split; [by destruct r | by apply elem_of_map_to_list].
Qed.

(** ** What the reads compute *)

Lemma get_conversation_run conversation_id c :
  ConversationModel.get_conversation conversation_id c
  = (match conversations (store c) !! conversation_id with
     | Some v =>
       Some (Conversation.of_row (Conversations.row_of (conversation_id, v)))
     | None => None
     end, logged [SelectConversation conversation_id] c).
Proof.
  unfold ConversationModel.get_conversation, logged. cbn.
  by destruct (conversations (store c) !! conversation_id).
Qed.

Lemma get_conversation_messages_run conversation_id page limit c :
  MessageModel.get_conversation_messages conversation_id page limit c
  = ({| Page.total :=
          Z.of_nat (length (Cassandra.messages_of (store c) conversation_id));
        Page.page := page; Page.limit := limit;
        Page.data :=
          Message.of_row <$>
            Py.slice
              (Cassandra.limit_rows (limit + (page - 1) * limit)
                 (Cassandra.messages_of (store c) conversation_id))
              ((page - 1) * limit) ((page - 1) * limit + limit) |},
     logged [SelectMessages conversation_id (limit + (page - 1) * limit);
             CountMessages conversation_id] c).
Proof.
  unfold MessageModel.get_conversation_messages, logged. cbn.
  by rewrite <-(assoc_L (++)).
Qed.

Lemma get_messages_before_timestamp_run conversation_id before page limit c :
  MessageModel.get_messages_before_timestamp conversation_id before page
    limit c
  = (let older := filter (λ r, Messages.created_at r < before)
                    (Cassandra.messages_of (store c) conversation_id) in
     {| Page.total := Z.of_nat (length older);
        Page.page := page; Page.limit := limit;
        Page.data :=
          Message.of_row <$>
            Py.slice
              (Cassandra.limit_rows (limit + (page - 1) * limit) older)
              ((page - 1) * limit) ((page - 1) * limit + limit) |},
     logged [SelectMessagesBefore conversation_id before
               (limit + (page - 1) * limit);
             CountMessagesBefore conversation_id before] c).
Proof.
  unfold MessageModel.get_messages_before_timestamp, logged. cbn.
  by rewrite <-(assoc_L (++)).
Qed.

Lemma conversation_details_run conversations_raw c :
  ConversationModel.conversation_details conversations_raw c
  = (omap (details_of (store c)) conversations_raw,
     logged ((λ r, SelectConversation (ConversationsByUser.conversation_id r))
               <$> conversations_raw) c).
Proof.
  revert c. induction conversations_raw as [|conv_raw rest IH]; intros c.
  - cbn. unfold logged. rewrite app_nil_r. by destruct c.
  - cbn [ConversationModel.conversation_details]. unfold bind at 1.
    rewrite get_conversation_run. unfold bind at 1. rewrite IH.
    unfold details_of, ret, logged. cbn.
    destruct (conversations (store c)
                !! ConversationsByUser.conversation_id conv_raw) as [v|];
      cbn; by rewrite <-(assoc_L (++)).
Qed.

Lemma get_user_conversations_run user_id page limit c :
  ConversationModel.get_user_conversations user_id page limit c
  = (let conversations_raw :=
       Py.slice
         (Cassandra.limit_rows (limit + (page - 1) * limit)
            (Cassandra.conversations_of (store c) user_id))
         ((page - 1) * limit) ((page - 1) * limit + limit) in
     ({| Page.total :=
           Z.of_nat (length (Cassandra.conversations_of (store c) user_id));
         Page.page := page; Page.limit := limit;
         Page.data := omap (details_of (store c)) conversations_raw |},
      logged (SelectConversationsByUser user_id (limit + (page - 1) * limit)
              :: ((λ r, SelectConversation
                          (ConversationsByUser.conversation_id r))
                    <$> conversations_raw)
              ++ [CountConversationsByUser user_id]) c)).
Proof.
  unfold ConversationModel.get_user_conversations, bind.
  cbn -[ConversationModel.conversation_details Py.slice].
  rewrite conversation_details_run. cbn -[Py.slice].
  unfold logged, ret; cbn -[Py.slice]. by rewrite <-!(assoc_L (++)).
Qed.

(** ** What the writes compute *)

Lemma create_or_get_conversation_run rt now user1_id user2_id c :
  ConversationModel.create_or_get_conversation rt now user1_id user2_id c
  = let lower_id := Z.min user1_id user2_id in
    let higher_id := Z.max user1_id user2_id in
    match Cassandra.rows_for_pair (store c) lower_id higher_id with
    | conversation :: _ =>
      (Conversation.of_row conversation,
       logged [SelectConversationByUsers lower_id higher_id] c)
    | [] =>
      let r := new_row rt lower_id higher_id now in
      (Conversation.of_row r,
       {| store := Cassandra.put_conversation r (store c);
          executed := executed c
                      ++ [SelectConversationByUsers lower_id higher_id;
                          InsertConversation r] |})
    end.
Proof.
  unfold ConversationModel.create_or_get_conversation, bind. cbn.
  destruct (Cassandra.rows_for_pair _ _ _); cbn; [|done].
  unfold ret. by rewrite <-(assoc_L (++)).
Qed.

Lemma create_or_get_conversation_comm rt now user1_id user2_id c :
  ConversationModel.create_or_get_conversation rt now user1_id user2_id c
  = ConversationModel.create_or_get_conversation rt now user2_id user1_id c.
Proof.
  unfold ConversationModel.create_or_get_conversation.
  by rewrite (Z.min_comm user1_id), (Z.max_comm user1_id).
Qed.

Lemma create_message_run rt message_id created_at now sender_id receiver_id
    content c :
  MessageModel.create_message rt message_id created_at now sender_id
    receiver_id content c
  = let resolved :=
      ConversationModel.create_or_get_conversation rt now sender_id
        receiver_id c in
    let conversation_id := Conversation.id resolved.1 in
    let m := sent_row message_id created_at conversation_id sender_id
               receiver_id content in
    let r1 := index_row sender_id receiver_id conversation_id created_at
                content in
    let r2 := index_row receiver_id sender_id conversation_id created_at
                content in
    ({| Message.id := message_id; Message.sender_id := sender_id;
        Message.receiver_id := receiver_id; Message.content := content;
        Message.created_at := created_at;
        Message.conversation_id := conversation_id |},
     {| store :=
          Cassandra.put_conversation_by_user r2
            (Cassandra.put_conversation_by_user r1
               (Cassandra.set_summary created_at content conversation_id
                  (Cassandra.put_message m (store resolved.2))));
        executed :=
          executed resolved.2
          ++ [InsertMessage m;
              UpdateConversation created_at content conversation_id;
              InsertConversationByUser r1; InsertConversationByUser r2] |}).
Proof.
  unfold MessageModel.create_message. unfold bind at 1.
  destruct (ConversationModel.create_or_get_conversation _ _ _ _ _)
    as [conversation c1].
  cbn. unfold ret. by rewrite <-!(assoc_L (++)).
Qed.

Lemma create_or_get_conversation_store rt now user1_id user2_id c :
  store (ConversationModel.create_or_get_conversation rt now user1_id
           user2_id c).2
  = match Cassandra.rows_for_pair (store c) (Z.min user1_id user2_id)
            (Z.max user1_id user2_id) with
    | [] => Cassandra.put_conversation
              (new_row rt (Z.min user1_id user2_id) (Z.max user1_id user2_id)
                 now) (store c)
    | _ :: _ => store c
    end.
Proof.
  rewrite create_or_get_conversation_run. cbn zeta.
  by destruct (Cassandra.rows_for_pair _ _ _).
Qed.

Lemma create_or_get_conversation_index rt now user1_id user2_id c :
  conversations_by_user
    (store (ConversationModel.create_or_get_conversation rt now user1_id
              user2_id c).2)
  = conversations_by_user (store c).
Proof.
  rewrite create_or_get_conversation_store.
  by destruct (Cassandra.rows_for_pair _ _ _).
Qed.

(** The index partitions after a send: the two rows of this send, and every
    earlier row that does not sit at one of their keys. *)
Lemma create_message_index rt message_id created_at now sender_id receiver_id
    content c u r :
  let sent := MessageModel.create_message rt message_id created_at now
                sender_id receiver_id content c in
  let conversation_id := Message.conversation_id sent.1 in
  r ∈ Cassandra.conversations_of (store sent.2) u ↔
  (u = sender_id
   ∧ r = index_row sender_id receiver_id conversation_id created_at content)
  ∨ (u = receiver_id
     ∧ r = index_row receiver_id sender_id conversation_id created_at content)
  ∨ (r ∈ Cassandra.conversations_of (store c) u
     ∧ ConversationsByUser.key_of r
       ≠ (sender_id, created_at, conversation_id)
     ∧ ConversationsByUser.key_of r
       ≠ (receiver_id, created_at, conversation_id)).
Proof.
  intros sent conversation_id. subst conversation_id sent.
  rewrite create_message_run. cbn zeta.
  set (conversation_id :=
         Conversation.id (ConversationModel.create_or_get_conversation rt now
                            sender_id receiver_id c).1).
  cbn [fst snd Message.conversation_id store].
  rewrite !elem_of_conversations_of.
  cbn [Cassandra.put_conversation_by_user Cassandra.set_summary
       Cassandra.put_message conversations_by_user].
  rewrite create_or_get_conversation_index, !lookup_insert.
  destruct r as [ru rc ro rt' rm]. unfold index_row. cbn.
  repeat case_decide; split; intros; destruct_and?; destruct_or?;
    destruct_and?; simplify_eq/=; auto 10; try congruence.
Qed.

(** A send removes no index row that was written at another time. *)
Lemma create_message_keeps_index_rows rt message_id created_at now sender_id
    receiver_id content c u r :
  r ∈ Cassandra.conversations_of (store c) u →
  ConversationsByUser.last_message_at r ≠ created_at →
  r ∈ Cassandra.conversations_of
        (store (MessageModel.create_message rt message_id created_at now
                  sender_id receiver_id content c).2) u.
Proof.
  intros Hr Hat. apply create_message_index. right. right.
  split; [done|]. unfold ConversationsByUser.key_of.
  split; intros [= _ Heq _]; by apply Hat.
Qed.

(** ** The message and conversation pages *)

(** C6.  For every page number [page >= 1] and every page size [limit],
    [get_conversation_messages] works with [offset = (page - 1) * limit]:
    it asks the store for the first [offset + limit] messages of the
    conversation, which the store lists newest first, returns as [data]
    exactly the messages of that prefix from index [offset] up to
    [offset + limit], hands [page] and [limit] back unchanged, and reports
    as [total] the number of all messages of the conversation.  It sends
    two statements and changes no table. *)
Theorem get_conversation_messages_page conversation_id page limit c :
  1 ≤ page →
  let offset := (page - 1) * limit in
  let all := Cassandra.messages_of (store c) conversation_id in
  let prefix := take (Z.to_nat (offset + limit)) all in
  let result :=
    MessageModel.get_conversation_messages conversation_id page limit c in
  Sorted Messages.precedes all
  ∧ (∀ r, r ∈ all ↔
          messages (store c) !! Messages.key_of r
            = Some (Messages.columns_of r)
          ∧ Messages.conversation_id r = conversation_id)
  ∧ Page.data result.1
    = Message.of_row <$> take (Z.to_nat limit) (drop (Z.to_nat offset) prefix)
  ∧ Page.page result.1 = page
  ∧ Page.limit result.1 = limit
  ∧ Page.total result.1 = Z.of_nat (length all)
  ∧ store result.2 = store c
  ∧ executed result.2
    = executed c ++ [SelectMessages conversation_id (offset + limit);
                     CountMessages conversation_id].
Proof.
  intros Hpage offset all prefix result. subst result.
  rewrite get_conversation_messages_run. cbn [fst snd Page.data Page.page
    Page.limit Page.total logged store executed].
  split; [apply messages_of_sorted|].
  split; [intros r; apply elem_of_messages_of|].
  rewrite page_slice by done. unfold Cassandra.limit_rows.
  fold offset all. rewrite (Z.add_comm limit offset). by fold prefix.
Qed.

Lemma get_conversation_messages_page_witness :
  Message.content <$>
    Page.data (MessageModel.get_conversation_messages 27948899 2 1
                 hi_then_yo).1 = ["hi"]
  ∧ Page.total (MessageModel.get_conversation_messages 27948899 2 1
                  hi_then_yo).1 = 2.
Proof.
  destruct (get_conversation_messages_page 27948899 2 1 hi_then_yo
              ltac:(lia)) as (_ & _ & Hdata & _ & _ & Htotal & _).
  split.
  - etrans; [exact (f_equal (fmap Message.content) Hdata)|].
    vm_compute. reflexivity.
  - etrans; [exact Htotal|]. vm_compute. reflexivity.
Defined.

(** C7.  Whatever the conversation, the timestamp [t], the page and the
    limit, every message in the [data] that [get_messages_before_timestamp]
    returns has [created_at < t]; none has [created_at >= t]. *)
Theorem get_messages_before_timestamp_older conversation_id before_timestamp
    page limit c m :
  m ∈ Page.data (MessageModel.get_messages_before_timestamp conversation_id
                   before_timestamp page limit c).1 →
  Message.created_at m < before_timestamp.
Proof.
  rewrite get_messages_before_timestamp_run. cbn.
  intros (r & -> & Hr)%list_elem_of_fmap.
  apply slice_elem_of in Hr. unfold Cassandra.limit_rows in Hr.
  eapply elem_of_sublist in Hr; [|apply sublist_take].
  by apply list_elem_of_filter in Hr as [? _].
Qed.

(** C9.  For a [conversation_id] with no row in [conversations],
    [get_conversation] returns [None] (it does not raise) and leaves every
    table as it was; all it does is send the one SELECT. *)
Theorem get_conversation_not_found conversation_id c :
  conversations (store c) !! conversation_id = None →
  (ConversationModel.get_conversation conversation_id c).1 = None
  ∧ store (ConversationModel.get_conversation conversation_id c).2 = store c
  ∧ executed (ConversationModel.get_conversation conversation_id c).2
    = executed c ++ [SelectConversation conversation_id].
Proof. intros Hnone. rewrite get_conversation_run, Hnone. done. Qed.

Lemma get_messages_before_timestamp_older_witness :
  Message.created_at
    {| Message.id := 900; Message.sender_id := 1; Message.receiver_id := 2;
       Message.content := "hi"; Message.created_at := 1700000000000000;
       Message.conversation_id := 27948899 |} < 1700000060000000.
Proof.
  apply (get_messages_before_timestamp_older 27948899 1700000060000000 1 5
           hi_then_yo).
  vm_compute. apply list_elem_of_here.
Defined.

Lemma get_conversation_not_found_witness :
  (ConversationModel.get_conversation 5 hi_then_yo).1 = None
  ∧ store (ConversationModel.get_conversation 5 hi_then_yo).2
    = store hi_then_yo
  ∧ executed (ConversationModel.get_conversation 5 hi_then_yo).2
    = executed hi_then_yo ++ [SelectConversation 5].
Proof. apply get_conversation_not_found. vm_compute. reflexivity. Defined.

(** C10.  [get_user_conversations] leaves out, without a word, every index
    row of the page whose [conversation_id] has no row in [conversations]:
    in every state [data] holds the details of the resolvable rows only, so
    that with an unresolvable row on the page its length is below
    [min limit (total - offset)], while [total] still counts every row of
    the user's index partition. *)
Theorem get_user_conversations_omits_unresolved user_id page limit c :
  let offset := (page - 1) * limit in
  let result := ConversationModel.get_user_conversations user_id page limit c in
  let conversations_raw :=
    Py.slice
      (take (Z.to_nat (limit + offset))
         (Cassandra.conversations_of (store c) user_id))
      offset (offset + limit) in
  Page.data result.1 = omap (details_of (store c)) conversations_raw
  ∧ (∀ d, d ∈ Page.data result.1 →
          is_Some (conversations (store c) !! Conversation.id d))
  ∧ (∀ conv_raw,
       conv_raw ∈ conversations_raw →
       conversations (store c) !! ConversationsByUser.conversation_id conv_raw
         = None →
       Z.of_nat (length (Page.data result.1))
       < Z.min limit (Page.total result.1 - offset))
  ∧ Page.total result.1
    = Z.of_nat (length (Cassandra.conversations_of (store c) user_id)).
Proof.
  intros offset result conversations_raw. subst result.
  rewrite get_user_conversations_run.
  cbn [fst snd Page.data Page.total]. unfold Cassandra.limit_rows.
  fold offset conversations_raw.
  split; [done|]. split.
  { intros d (r & _ & Hd)%list_elem_of_omap. unfold details_of in Hd.
    destruct (conversations (store c)
                !! ConversationsByUser.conversation_id r) as [v|] eqn:Hv;
      [|done].
    injection Hd as <-. by exists v. }
  split; [|done]. intros conv_raw Hin Hnone.
  assert (length (omap (details_of (store c)) conversations_raw)
          < length conversations_raw)%nat as Hlt.
  { apply (omap_length_lt _ _ conv_raw); [done|].
    unfold details_of. by rewrite Hnone. }
  apply page_slice_inhabited in Hin as Hpos. destruct Hpos as [Hp Hl].
  assert (0 ≤ offset) as Ho by (unfold offset; nia).
  assert (length conversations_raw
          = length (take (Z.to_nat limit) (drop (Z.to_nat offset)
              (take (Z.to_nat (limit + offset))
                 (Cassandra.conversations_of (store c) user_id))))) as Hlen.
  { unfold conversations_raw. by rewrite slice_nonneg by lia. }
  rewrite length_take, length_drop, length_take in Hlen. lia.
Qed.

Lemma get_user_conversations_omits_unresolved_witness :
  Z.of_nat (length (Page.data
              (ConversationModel.get_user_conversations 1 1 20
                 with_orphan).1))
  < Z.min 20 (Page.total (ConversationModel.get_user_conversations 1 1 20
                            with_orphan).1 - (1 - 1) * 20).
Proof.
  destruct (get_user_conversations_omits_unresolved 1 1 20 with_orphan)
    as (_ & _ & Hshort & _).
  apply (Hshort (index_row 1 3 7 1700000030000000 "hey")).
  - vm_compute. apply list_elem_of_here.
  - vm_compute. reflexivity.
Defined.

(** C8, as the code has it.  The paginated reads check nothing: called with
    a page size of 0 or a page number of 0, the first thing
    [get_conversation_messages] and [get_user_conversations] do is send
    their SELECT to the store, with [LIMIT limit + offset], which is 0.
    Nothing is said about what the store answers to it, nor about what the
    call then returns. *)
Theorem paginated_reads_unvalidated conversation_id user_id page limit c :
  page = 0 ∨ limit = 0 →
  (∃ rest,
     executed (MessageModel.get_conversation_messages conversation_id page
                 limit c).2
     = executed c ++ SelectMessages conversation_id 0 :: rest)
  ∧ (∃ rest,
       executed (ConversationModel.get_user_conversations user_id page limit
                   c).2
       = executed c ++ SelectConversationsByUser user_id 0 :: rest).
Proof.
  intros Hzero.
  rewrite get_conversation_messages_run, get_user_conversations_run.
  cbn zeta. cbn [snd logged executed].
  replace (limit + (page - 1) * limit) with 0 by (destruct Hzero; subst; lia).
  split; eexists; reflexivity.
Qed.

Lemma paginated_reads_unvalidated_witness :
  ∃ rest,
    executed (MessageModel.get_conversation_messages 27948899 1 0
                hi_then_yo).2
    = executed hi_then_yo ++ SelectMessages 27948899 0 :: rest.
Proof.
  apply (paginated_reads_unvalidated 27948899 1 1 0 hi_then_yo). right. lia.
Defined.

(** C8 as stated fails: on the tables after "hi" and "yo", page number 0
    and page size 0 are not rejected before the store is reached; the
    statement each call executes next is its SELECT, with [LIMIT 0]. *)
Lemma page_zero_reaches_store :
  executed (MessageModel.get_conversation_messages 27948899 0 20
              hi_then_yo).2
    !! length (executed hi_then_yo)
  = Some (SelectMessages 27948899 0)
  ∧ executed (ConversationModel.get_user_conversations 1 1 0 hi_then_yo).2
      !! length (executed hi_then_yo)
    = Some (SelectConversationsByUser 1 0).
Proof. vm_compute. done. Qed.

(** ** The fan-out of a send *)

(** What a send writes for its message: [get_conversation] on the
    message's conversation returns [last_message_content = content] and
    [last_message_at] the message's timestamp, and the index partitions of
    the sender and of the receiver each hold, for that conversation, the row
    written by this send: the other user, the message's timestamp and
    [content]. *)
Lemma create_message_fans_out rt message_id created_at now sender_id
    receiver_id content c :
  let sent := MessageModel.create_message rt message_id created_at now
                sender_id receiver_id content c in
  let conversation_id := Message.conversation_id sent.1 in
  (∃ d, (ConversationModel.get_conversation conversation_id sent.2).1 = Some d
        ∧ Conversation.id d = conversation_id
        ∧ Conversation.last_message_content d = Some content
        ∧ Conversation.last_message_at d = Some created_at)
  ∧ index_row sender_id receiver_id conversation_id created_at content
    ∈ Cassandra.conversations_of (store sent.2) sender_id
  ∧ index_row receiver_id sender_id conversation_id created_at content
    ∈ Cassandra.conversations_of (store sent.2) receiver_id.
Proof.
  intros sent conversation_id.
  split; [|split].
  - subst conversation_id sent. rewrite create_message_run. cbn zeta.
    cbn [fst snd Message.conversation_id store].
    rewrite get_conversation_run.
    cbn [fst store conversations Cassandra.put_conversation_by_user
         Cassandra.set_summary].
    rewrite lookup_insert_eq. eexists. split; [done|]. by cbn.
  - apply create_message_index. by left.
  - apply create_message_index. right. by left.
Qed.

(** C3 fails on the code: users 1 and 2 have exchanged "hi" (tables the
    models bring about from empty ones) and user 1 sends "hello" a minute
    later.  [get_conversation] on the conversation then returns the summary
    "hello" with the message's timestamp, but the rows of the per-user index
    for the conversation do not all carry it: the partition of each
    participant holds the row of "hello" and, beside it, the row of "hi"
    with the earlier timestamp, which [_update_conversation_for_user] has
    not replaced. *)
Lemma create_message_leaves_stale_rows :
  reachable Sample.runtime after_hi
  ∧ Message.conversation_id hi_then_hello.1 = 27948899
  ∧ (ConversationModel.get_conversation 27948899 hi_then_hello.2).1
    = Some {| Conversation.id := 27948899;
              Conversation.user1_id := Some 1;
              Conversation.user2_id := Some 2;
              Conversation.created_at := Some 1700000000000250;
              Conversation.last_message_at := Some 1700000060000000;
              Conversation.last_message_content := Some "hello" |}
  ∧ Cassandra.conversations_of (store hi_then_hello.2) 1
    = [index_row 1 2 27948899 1700000060000000 "hello";
       index_row 1 2 27948899 1700000000000000 "hi"]
  ∧ Cassandra.conversations_of (store hi_then_hello.2) 2
    = [index_row 2 1 27948899 1700000060000000 "hello";
       index_row 2 1 27948899 1700000000000000 "hi"].
Proof.
  split; [unfold after_hi; repeat constructor|].
  vm_compute. done.
Qed.

(** ** One conversation for a pair *)

Lemma elem_of_rows_for_pair s lower_id higher_id r :
  r ∈ Cassandra.rows_for_pair s lower_id higher_id ↔
  conversations s !! Conversations.conversation_id r
    = Some (Conversations.columns_of r)
  ∧ Conversations.user1_id r = Some lower_id
  ∧ Conversations.user2_id r = Some higher_id.
Proof.
  unfold Cassandra.rows_for_pair.
  rewrite list_elem_of_filter, elem_of_scan_conversations. tauto.
Qed.

#[global] Instance conversations_row_of_inj : Inj (=) (=) Conversations.row_of.
Proof. intros [i [? ? ? ? ?]] [j [? ? ? ? ?]] Heq. by simplify_eq/=. Qed.

Lemma rows_for_pair_NoDup s lower_id higher_id :
  NoDup (Cassandra.rows_for_pair s lower_id higher_id).
Proof.
  apply NoDup_filter, NoDup_fmap_2; [apply _|apply NoDup_map_to_list].
Qed.

(** In tables where no pair occurs twice, a scan for a pair meets at most
    one row. *)
Lemma rows_for_pair_unique s lower_id higher_id :
  pair_unique s →
  (length (Cassandra.rows_for_pair s lower_id higher_id) ≤ 1)%nat.
Proof.
  intros Huniq. pose proof (rows_for_pair_NoDup s lower_id higher_id) as Hnd.
  destruct (Cassandra.rows_for_pair s lower_id higher_id)
    as [|r1 [|r2 rows]] eqn:Hrows; cbn; [lia..|]. exfalso.
  assert (r1 ∈ Cassandra.rows_for_pair s lower_id higher_id) as H1
    by (rewrite Hrows; apply list_elem_of_here).
  assert (r2 ∈ Cassandra.rows_for_pair s lower_id higher_id) as H2
    by (rewrite Hrows; apply list_elem_of_further, list_elem_of_here).
  apply elem_of_rows_for_pair in H1 as (Hl1 & Ha1 & Hb1).
  apply elem_of_rows_for_pair in H2 as (Hl2 & Ha2 & Hb2).
  assert (Conversations.conversation_id r1 = Conversations.conversation_id r2)
    as Hid.
  { eapply Huniq; [exact Hl1|exact Hl2|..]; destruct r1, r2; cbn in *;
      subst; eauto. }
  rewrite Hid in Hl1. rewrite Hl1 in Hl2.
  assert (r1 = r2) by (destruct r1, r2; by simplify_eq/=).
  subst. apply NoDup_cons in Hnd as [Hnotin _].
  destruct Hnotin. apply list_elem_of_here.
Qed.

(** A scan after the creation of a row for a pair that had none meets that
    row alone. *)
Lemma rows_for_pair_put_conversation s lower_id higher_id r :
  Cassandra.rows_for_pair s lower_id higher_id = [] →
  Conversations.user1_id r = Some lower_id →
  Conversations.user2_id r = Some higher_id →
  Cassandra.rows_for_pair (Cassandra.put_conversation r s) lower_id higher_id
  = [r].
Proof.
  intros Hnone Ha Hb.
  pose proof (rows_for_pair_NoDup (Cassandra.put_conversation r s)
                lower_id higher_id) as Hnd.
  assert (∀ r', r' ∈ Cassandra.rows_for_pair (Cassandra.put_conversation r s)
                       lower_id higher_id ↔ r' = r) as Hall.
  { intros r'. rewrite elem_of_rows_for_pair. cbn [Cassandra.put_conversation
      conversations]. split.
    - intros (Hl & Ha' & Hb'). rewrite lookup_insert in Hl.
      case_decide as Hid.
      + destruct r, r'; by simplify_eq/=.
      + exfalso. eapply (not_elem_of_nil r'). rewrite <-Hnone.
        by apply elem_of_rows_for_pair.
    - intros ->. by rewrite lookup_insert_eq. }
  destruct (Cassandra.rows_for_pair (Cassandra.put_conversation r s)
              lower_id higher_id) as [|r1 [|r2 rows]].
  - exfalso. apply (not_elem_of_nil r). by apply Hall.
  - f_equal. apply Hall, list_elem_of_here.
  - assert (r1 = r) by apply Hall, list_elem_of_here.
    assert (r2 = r)
      by apply Hall, list_elem_of_further, list_elem_of_here.
    subst. apply NoDup_cons in Hnd as [Hnotin _].
    destruct Hnotin. apply list_elem_of_here.
Qed.

(** [pair_unique] is kept by every write. *)
Lemma pair_unique_empty : pair_unique empty_store.
Proof. intros i j v w Hi. cbn in Hi. by rewrite lookup_empty in Hi. Qed.

Lemma pair_unique_put_message r s :
  pair_unique s → pair_unique (Cassandra.put_message r s).
Proof. done. Qed.

Lemma pair_unique_put_conversation_by_user r s :
  pair_unique s → pair_unique (Cassandra.put_conversation_by_user r s).
Proof. done. Qed.

Lemma pair_unique_set_summary last_message_at last_message_content
    conversation_id s :
  pair_unique s →
  pair_unique (Cassandra.set_summary last_message_at last_message_content
                 conversation_id s).
Proof.
  intros Huniq i j v w. cbn [Cassandra.set_summary conversations].
  rewrite !lookup_insert.
  destruct (conversations s !! conversation_id) as [old|] eqn:Hold; cbn.
  - repeat case_decide; intros Hv Hw Hs1 Hs2 H1 H2; simplify_eq/=.
    + done.
    + by eapply (Huniq _ _ _ _ Hold Hw).
    + by eapply (Huniq _ _ _ _ Hv Hold).
    + by eapply (Huniq _ _ _ _ Hv Hw).
  - repeat case_decide; intros Hv Hw Hs1 Hs2 H1 H2; simplify_eq/=.
    all: try done. all: try by eapply (Huniq _ _ _ _ Hv Hw).
    all: try by destruct Hs1.
    rewrite H1 in Hs1. by destruct Hs1.
Qed.

Lemma pair_unique_put_conversation s lower_id higher_id r :
  Cassandra.rows_for_pair s lower_id higher_id = [] →
  Conversations.user1_id r = Some lower_id →
  Conversations.user2_id r = Some higher_id →
  pair_unique s → pair_unique (Cassandra.put_conversation r s).
Proof.
  intros Hnone Ha Hb Huniq i j v w.
  cbn [Cassandra.put_conversation conversations]. rewrite !lookup_insert.
  assert (∀ k x, conversations s !! k = Some x →
            Conversations.col_user1_id x = Some lower_id →
            Conversations.col_user2_id x = Some higher_id → False) as Hfresh.
  { intros k x Hk Hx1 Hx2.
    apply (not_elem_of_nil (Conversations.row_of (k, x))). rewrite <-Hnone.
    apply elem_of_rows_for_pair. by destruct x. }
  repeat case_decide; intros; simplify_eq/=; try done.
  - exfalso. eapply Hfresh; [done|..]; destruct r; cbn in *; congruence.
  - exfalso. eapply Hfresh; [done|..]; destruct r; cbn in *; congruence.
  - by eapply Huniq.
Qed.

Lemma create_or_get_conversation_pair_unique rt now user1_id user2_id c :
  pair_unique (store c) →
  pair_unique (store (ConversationModel.create_or_get_conversation rt now
                        user1_id user2_id c).2).
Proof.
  intros Huniq. rewrite create_or_get_conversation_store.
  destruct (Cassandra.rows_for_pair _ _ _) eqn:Hrows; [|done].
  by eapply pair_unique_put_conversation.
Qed.

Lemma reachable_pair_unique rt c : reachable rt c → pair_unique (store c).
Proof.
  induction 1 as [|c ??????? IH|c ???? IH|c ?? IH|c ???? IH|c ???? IH
                  |c ????? IH].
  - apply pair_unique_empty.
  - rewrite create_message_run. cbn [snd store].
    by apply pair_unique_put_conversation_by_user,
      pair_unique_put_conversation_by_user, pair_unique_set_summary,
      pair_unique_put_message, create_or_get_conversation_pair_unique.
  - by apply create_or_get_conversation_pair_unique.
  - by rewrite get_conversation_run.
  - by rewrite get_user_conversations_run.
  - by rewrite get_conversation_messages_run.
  - by rewrite get_messages_before_timestamp_run.
Qed.

(** A second call finds what the first one returned, and writes nothing. *)
Lemma create_or_get_conversation_again rt t1 t2 user1_id user2_id c :
  let first :=
    ConversationModel.create_or_get_conversation rt t1 user1_id user2_id c in
  let again :=
    ConversationModel.create_or_get_conversation rt t2 user1_id user2_id
      first.2 in
  again.1 = first.1 ∧ store again.2 = store first.2
  ∧ ∃ r rows, Cassandra.rows_for_pair (store first.2)
                (Z.min user1_id user2_id) (Z.max user1_id user2_id)
              = r :: rows
              ∧ first.1 = Conversation.of_row r.
Proof.
  intros first again. subst again.
  rewrite (create_or_get_conversation_run rt t2). cbn zeta.
  subst first. rewrite (create_or_get_conversation_run rt t1). cbn zeta.
  destruct (Cassandra.rows_for_pair (store c) _ _) as [|r rows] eqn:Hrows;
    cbn [fst snd store logged].
  - rewrite (rows_for_pair_put_conversation _ _ _ _ Hrows) by done.
    cbn [fst snd store logged]. by eauto 7.
  - rewrite Hrows. cbn [fst snd store logged]. by eauto 7.
Qed.

(** C5.  On tables the models have brought about, two calls of
    [create_or_get_conversation] for the same unordered pair (the second in
    either argument order, at any later clock reading) never make two rows:
    the second call returns the very conversation the first returned,
    writes nothing, and a scan for the canonical pair then meets exactly
    one row, that conversation. *)
Theorem create_or_get_conversation_twice rt c t1 t2 user1_id user2_id :
  reachable rt c →
  let first :=
    ConversationModel.create_or_get_conversation rt t1 user1_id user2_id c in
  let again :=
    ConversationModel.create_or_get_conversation rt t2 user1_id user2_id
      first.2 in
  let swapped :=
    ConversationModel.create_or_get_conversation rt t2 user2_id user1_id
      first.2 in
  again.1 = first.1 ∧ swapped.1 = first.1
  ∧ store again.2 = store first.2 ∧ store swapped.2 = store first.2
  ∧ Conversation.of_row <$>
      Cassandra.rows_for_pair (store again.2) (Z.min user1_id user2_id)
        (Z.max user1_id user2_id)
    = [first.1].
Proof.
  intros Hreach first again swapped.
  assert (swapped = again) as ->
    by apply create_or_get_conversation_comm.
  destruct (create_or_get_conversation_again rt t1 t2 user1_id user2_id c)
    as (Hfst & Hstore & r & rows & Hrows & Hr).
  fold first in Hfst, Hstore, Hrows, Hr. fold again in Hfst, Hstore.
  repeat split; try done.
  rewrite Hstore, Hrows, Hr.
  assert (pair_unique (store first.2)) as Huniq.
  { apply (reachable_pair_unique rt). by constructor. }
  apply (rows_for_pair_unique _ (Z.min user1_id user2_id)
           (Z.max user1_id user2_id)) in Huniq.
  rewrite Hrows in Huniq. destruct rows; [done|cbn in Huniq; lia].
Qed.

Lemma create_or_get_conversation_twice_witness :
  (ConversationModel.create_or_get_conversation Sample.runtime
     1700000000500000 2 1
     (ConversationModel.create_or_get_conversation Sample.runtime
        1700000000000250 1 2 (connect empty_store)).2).1
  = (ConversationModel.create_or_get_conversation Sample.runtime
       1700000000000250 1 2 (connect empty_store)).1.
Proof.
  apply (create_or_get_conversation_twice Sample.runtime
           (connect empty_store) 1700000000000250 1700000000500000 1 2).
  constructor.
Defined.

(** C4.  [create_or_get_conversation] does not mind the order of its
    arguments: on the same tables and clock reading, [(a, b)] and [(b, a)]
    give the same result and the same tables, since both are looked up and
    created as [(min, max)]; and a call for [(b, a)] that follows a call for
    [(a, b)] returns the same [conversation_id].  ([a ≠ b] is not needed.) *)
Theorem create_or_get_conversation_commutes rt c t1 t2 a b :
  ConversationModel.create_or_get_conversation rt t1 a b c
  = ConversationModel.create_or_get_conversation rt t1 b a c
  ∧ Conversation.id
      (ConversationModel.create_or_get_conversation rt t2 b a
         (ConversationModel.create_or_get_conversation rt t1 a b c).2).1
    = Conversation.id
        (ConversationModel.create_or_get_conversation rt t1 a b c).1.
Proof.
  split; [apply create_or_get_conversation_comm|].
  rewrite (create_or_get_conversation_comm rt t2 b a).
  by destruct (create_or_get_conversation_again rt t1 t2 a b c) as [-> _].
Qed.

(** Two clock readings give the same identifier exactly when the runtime's
    [hash] does not tell their keys apart modulo 100000000. *)
Lemma new_conversation_id_eq rt lower_id higher_id t1 t2 :
  ConversationModel.new_conversation_id rt lower_id higher_id t1
  = ConversationModel.new_conversation_id rt lower_id higher_id t2
  ↔ Py.hash rt (Py.fmt3 rt lower_id higher_id t1) `mod` 100000000
    = Py.hash rt (Py.fmt3 rt lower_id higher_id t2) `mod` 100000000.
Proof.
  unfold ConversationModel.new_conversation_id.
  by rewrite !Z.abs_eq by (apply Z.mod_pos_bound; lia).
Qed.

(** C1, as the code has it.  When no conversation exists for the pair, the
    identifier that [create_or_get_conversation] allocates is
    [abs(hash(f"{lower}:{higher}:{now.timestamp()}") % 100000000)], with the
    [hash] of the running interpreter: a number in [0, 100000000) determined
    by the canonical pair together with the creation time [now].  Within
    one interpreter (one runtime [rt]) it is the same for both argument
    orders and for any two executions of the creation path that read the
    same [now]; the new row is written at that key. *)
Theorem created_conversation_id rt now user1_id user2_id c c' :
  Cassandra.rows_for_pair (store c) (Z.min user1_id user2_id)
    (Z.max user1_id user2_id) = [] →
  Cassandra.rows_for_pair (store c') (Z.min user1_id user2_id)
    (Z.max user1_id user2_id) = [] →
  let created :=
    ConversationModel.create_or_get_conversation rt now user1_id user2_id c in
  Conversation.id created.1
  = Z.abs (Py.hash rt (pretty (Z.min user1_id user2_id) +:+ ":"
                       +:+ pretty (Z.max user1_id user2_id) +:+ ":"
                       +:+ Py.timestamp_text rt now) `mod` 100000000)
  ∧ 0 ≤ Conversation.id created.1 < 100000000
  ∧ Conversation.id
      (ConversationModel.create_or_get_conversation rt now user2_id user1_id
         c').1
    = Conversation.id created.1
  ∧ conversations (store created.2) !! Conversation.id created.1
    = Some {| Conversations.col_user1_id := Some (Z.min user1_id user2_id);
              Conversations.col_user2_id := Some (Z.max user1_id user2_id);
              Conversations.col_created_at := Some now;
              Conversations.col_last_message_at := None;
              Conversations.col_last_message_content := None |}.
Proof.
  intros Hnone Hnone' created. subst created.
  rewrite (create_or_get_conversation_comm rt now user2_id user1_id).
  rewrite !create_or_get_conversation_run. cbn zeta. rewrite Hnone, Hnone'.
  cbn [fst snd store Conversation.of_row Conversation.id new_row
       Conversations.conversation_id Cassandra.put_conversation conversations].
  rewrite lookup_insert_eq.
  unfold ConversationModel.new_conversation_id, Py.fmt3.
  repeat split; try done.
  - apply Z.abs_nonneg.
  - rewrite Z.abs_eq; apply Z.mod_pos_bound; lia.
Qed.

Lemma created_conversation_id_witness :
  Conversation.id
    (ConversationModel.create_or_get_conversation Sample.runtime
       1700000000000250 2 1 (connect empty_store)).1
  = Conversation.id
      (ConversationModel.create_or_get_conversation Sample.runtime
         1700000000000250 1 2 (connect empty_store)).1.
Proof.
  apply (created_conversation_id Sample.runtime 1700000000000250 1 2
           (connect empty_store) (connect empty_store));
    vm_compute; reflexivity.
Defined.

(** C1 as stated fails: for the pair (1, 2) on empty tables, the creation
    path allocates 27948899 when the clock reads 1700000000.00025 and
    64904229 when it reads 1700000000.5, and the pair-only derivation of
    [generate_conversation_id] gives 257474 (on the sample runtime); in an
    interpreter whose [hash] starts from another key (11 for 7) the first
    clock reading gives 68496743. *)
Lemma conversation_id_follows_clock :
  Conversation.id
    (ConversationModel.create_or_get_conversation Sample.runtime
       1700000000000250 1 2 (connect empty_store)).1 = 27948899
  ∧ Conversation.id
      (ConversationModel.create_or_get_conversation Sample.runtime
         1700000000500000 1 2 (connect empty_store)).1 = 64904229
  ∧ generate_conversation_id Sample.runtime 1 2 = 257474
  ∧ Conversation.id
      (ConversationModel.create_or_get_conversation
         {| Py.hash := Sample.hash_from 11;
            Py.timestamp_text := Sample.timestamp_text |}
         1700000000000250 1 2 (connect empty_store)).1 = 68496743.
Proof. vm_compute. done. Qed.

(** C2 fails on the code: after users 1 and 2 exchange "hi" and then "yo"
    (tables the models bring about from empty ones), the index partition
    of user 1 holds two distinct rows with the same
    [(user_id, conversation_id)]: the second send added a row beside the
    first instead of replacing it, because [last_message_at] is part of the
    primary key of [conversations_by_user]. *)
Lemma index_row_per_send :
  reachable Sample.runtime hi_then_yo
  ∧ Cassandra.conversations_of (store hi_then_yo) 1
    = [index_row 1 2 27948899 1700000060000000 "yo";
       index_row 1 2 27948899 1700000000000000 "hi"].
Proof.
  split; [unfold hi_then_yo, after_hi; repeat constructor|].
  vm_compute. reflexivity.
Qed.

(** * Further properties *)

(** ** More on pages *)

Section page_rows.
Context {A : Type}.
Implicit Types l : list A.

(** From the first page on, a page is a run of the whole partition. *)
Lemma page_rows l page limit :
  1 ≤ page →
  Py.slice (Cassandra.limit_rows (limit + (page - 1) * limit) l)
    ((page - 1) * limit) ((page - 1) * limit + limit)
  = take (Z.to_nat limit) (drop (Z.to_nat ((page - 1) * limit)) l).
Proof.
  intros Hpage. rewrite page_slice by done. unfold Cassandra.limit_rows.
  destruct (decide (0 ≤ limit)) as [Hl|Hl].
  - assert (0 ≤ (page - 1) * limit) by nia.
    replace (Z.to_nat (limit + (page - 1) * limit))
      with (Z.to_nat ((page - 1) * limit) + Z.to_nat limit)%nat by lia.
    by rewrite <-take_drop_commute, take_take, Nat.min_id.
  - replace (Z.to_nat limit) with 0%nat by lia. by rewrite !take_0.
Qed.

End page_rows.

(** X1.  From the first page on, [get_conversation_messages] returns
    [min limit (total - offset)] messages, and none when that is not
    positive: a page never holds more than [limit] messages, the last page
    holds what is left, and a page past the end is empty. *)
Theorem get_conversation_messages_length conversation_id page limit c :
  1 ≤ page →
  let result :=
    MessageModel.get_conversation_messages conversation_id page limit c in
  Z.of_nat (length (Page.data result.1))
  = Z.max 0 (Z.min limit (Page.total result.1 - (page - 1) * limit)).
Proof.
  intros Hpage result. subst result. rewrite get_conversation_messages_run.
  cbn [fst Page.data Page.total].
  rewrite page_rows, length_fmap, length_take, length_drop by done.
  destruct (decide (0 ≤ limit)); [|lia].
  assert (0 ≤ (page - 1) * limit) by nia. lia.
Qed.

Lemma get_conversation_messages_length_witness :
  Z.of_nat (length (Page.data
              (MessageModel.get_conversation_messages 27948899 2 5
                 hi_then_yo).1))
  = Z.max 0 (Z.min 5 (Page.total
                        (MessageModel.get_conversation_messages 27948899 2 5
                           hi_then_yo).1 - (2 - 1) * 5)).
Proof.
  apply (get_conversation_messages_length 27948899 2 5 hi_then_yo). lia.
Defined.

(** X2.  The pages 1 to [n] of [get_conversation_messages], read with
    the same [limit] on the same tables and put one after the other, are
    the first [n * limit] messages of the conversation, each once and
    newest first; once [n * limit] reaches the number of messages they are
    the whole conversation. *)
Theorem get_conversation_messages_pages conversation_id limit c (n : nat) :
  let all := Cassandra.messages_of (store c) conversation_id in
  let pages :=
    (λ p : nat,
       Page.data (MessageModel.get_conversation_messages conversation_id
                    (Z.of_nat p) limit c).1) <$> seq 1 n in
  concat pages = Message.of_row <$> take (n * Z.to_nat limit) all
  ∧ ((length all ≤ n * Z.to_nat limit)%nat →
     concat pages = Message.of_row <$> all).
Proof.
  intros all pages.
  assert (concat pages = Message.of_row <$> take (n * Z.to_nat limit) all)
    as Hcat.
  { subst pages. induction n as [|n IH]; [done|].
    rewrite seq_S, fmap_app, concat_app, IH. cbn [fmap list_fmap concat].
    rewrite app_nil_r, get_conversation_messages_run.
    cbn [fst Page.data]. rewrite page_rows by lia. fold all.
    rewrite <-fmap_app. f_equal.
    destruct (decide (0 ≤ limit)) as [Hl|Hl].
    - replace (Z.to_nat ((Z.of_nat (1 + n) - 1) * limit))
        with (n * Z.to_nat limit)%nat by nia.
      rewrite take_take_drop. f_equal. lia.
    - replace (Z.to_nat limit) with 0%nat by lia.
      rewrite !Nat.mul_0_r, !take_0. done. }
  split; [done|]. intros Hall. by rewrite Hcat, take_ge.
Qed.



(** ** Partitions are determined by their rows *)

#[global] Instance messages_row_of_inj : Inj (=) (=) Messages.row_of.
Proof. intros [[[? ?] ?] [? ? ?]] [[[? ?] ?] [? ? ?]] Heq. by simplify_eq/=. Qed.

#[global] Instance index_row_of_inj : Inj (=) (=) ConversationsByUser.row_of.
Proof. intros [[[? ?] ?] [? ?]] [[[? ?] ?] [? ?]] Heq. by simplify_eq/=. Qed.

#[global] Instance messages_precedes_trans : Transitive Messages.precedes.
Proof. intros r1 r2 r3. unfold Messages.precedes. lia. Qed.

#[global] Instance index_precedes_trans :
  Transitive ConversationsByUser.precedes.
Proof. intros r1 r2 r3. unfold ConversationsByUser.precedes. lia. Qed.

Lemma messages_of_NoDup s conversation_id :
  NoDup (Cassandra.messages_of s conversation_id).
Proof.
  unfold Cassandra.messages_of. rewrite merge_sort_Permutation.
  apply NoDup_filter, NoDup_fmap_2; [apply _|apply NoDup_map_to_list].
Qed.

Lemma conversations_of_NoDup s user_id :
  NoDup (Cassandra.conversations_of s user_id).
Proof.
  unfold Cassandra.conversations_of. rewrite merge_sort_Permutation.
  apply NoDup_filter, NoDup_fmap_2; [apply _|apply NoDup_map_to_list].
Qed.

(** Two rows of one partition at the same clustering key are one row. *)
Lemma messages_of_key s conversation_id r1 r2 :
  r1 ∈ Cassandra.messages_of s conversation_id →
  r2 ∈ Cassandra.messages_of s conversation_id →
  Messages.created_at r1 = Messages.created_at r2 →
  Messages.message_id r1 = Messages.message_id r2 →
  r1 = r2.
Proof.
  intros [Hl1 Hc1]%elem_of_messages_of [Hl2 Hc2]%elem_of_messages_of Ht Hm.
  destruct r1, r2; cbn in *; simplify_eq.
  unfold Messages.key_of, Messages.columns_of in *; cbn in *.
  rewrite Hl1 in Hl2. by simplify_eq.
Qed.

Lemma conversations_of_key s user_id r1 r2 :
  r1 ∈ Cassandra.conversations_of s user_id →
  r2 ∈ Cassandra.conversations_of s user_id →
  ConversationsByUser.last_message_at r1
  = ConversationsByUser.last_message_at r2 →
  ConversationsByUser.conversation_id r1
  = ConversationsByUser.conversation_id r2 →
  r1 = r2.
Proof.
  intros [Hl1 Hc1]%elem_of_conversations_of
         [Hl2 Hc2]%elem_of_conversations_of Ht Hm.
  destruct r1, r2; cbn in *; simplify_eq.
  unfold ConversationsByUser.key_of, ConversationsByUser.columns_of in *;
    cbn in *.
  rewrite Hl1 in Hl2. by simplify_eq.
Qed.

(** Partitions with the same rows are the same list. *)
Lemma messages_of_ext s s' conversation_id :
  (∀ r, r ∈ Cassandra.messages_of s conversation_id
        ↔ r ∈ Cassandra.messages_of s' conversation_id) →
  Cassandra.messages_of s conversation_id
  = Cassandra.messages_of s' conversation_id.
Proof.
  intros Hsame.
  apply (Sorted_unique_strong Messages.precedes);
    [|apply messages_of_sorted..|
     by apply NoDup_Permutation; [apply messages_of_NoDup..|]].
  intros r1 r2 H1 H2%Hsame Hp1 Hp2.
  apply (messages_of_key s conversation_id); [done..| |];
    unfold Messages.precedes in *; lia.
Qed.

Lemma conversations_of_ext s s' user_id :
  (∀ r, r ∈ Cassandra.conversations_of s user_id
        ↔ r ∈ Cassandra.conversations_of s' user_id) →
  Cassandra.conversations_of s user_id = Cassandra.conversations_of s' user_id.
Proof.
  intros Hsame.
  apply (Sorted_unique_strong ConversationsByUser.precedes);
    [|apply conversations_of_sorted..|
     by apply NoDup_Permutation; [apply conversations_of_NoDup..|]].
  intros r1 r2 H1 H2%Hsame Hp1 Hp2.
  apply (conversations_of_key s user_id); [done..| |];
    unfold ConversationsByUser.precedes in *; lia.
Qed.

(** ** Order of the pages *)

Section sorted_facts.
Context {A : Type}.
Implicit Types l : list A.

Lemma StronglySorted_sublist (R : relation A) l1 l2 :
  l1 `sublist_of` l2 → StronglySorted R l2 → StronglySorted R l1.
Proof.
  induction 1 as [|x l1 l2 Hsub IH|x l1 l2 Hsub IH];
    rewrite ?StronglySorted_cons; [done|..].
  - intros [Hall Hl2]. split; [|by apply IH].
    rewrite Forall_forall in Hall. rewrite Forall_forall.
    intros y Hy. apply Hall.
    by eapply elem_of_sublist.
  - intros [_ Hl2]. by apply IH.
Qed.

Lemma StronglySorted_strengthen (R R' : relation A) l :
  (∀ x y, x ∈ l → y ∈ l → x ≠ y → R x y → R' x y) →
  NoDup l → StronglySorted R l → StronglySorted R' l.
Proof.
  intros Himp Hnd Hsorted. induction Hsorted as [|x l Hl IH Hall].
  { constructor. }
  apply NoDup_cons in Hnd as [Hx Hnd]. constructor.
  - apply IH; [|done]. intros y z Hy Hz. apply Himp; by constructor.
  - rewrite Forall_forall in Hall. rewrite Forall_forall. intros y Hy.
    apply Himp; [by constructor|by constructor| |by apply Hall].
    by intros ->.
Qed.

Lemma StronglySorted_omap {B} (f : A → option B) (R : relation A)
    (R' : relation B) l :
  (∀ x y x' y', R x y → f x = Some x' → f y = Some y' → R' x' y') →
  StronglySorted R l → StronglySorted R' (omap f l).
Proof.
  intros Himp. induction 1 as [|x l Hl IH Hall]; cbn; [constructor|].
  destruct (f x) as [x'|] eqn:Hfx; [|done]. constructor; [done|].
  rewrite Forall_forall in Hall. rewrite Forall_forall.
  intros y' (y & Hy & Hfy)%list_elem_of_omap. eauto.
Qed.

End sorted_facts.

(** A partition of [messages] runs strictly from newer to older. *)
Lemma messages_of_strictly_sorted s conversation_id :
  StronglySorted (λ r1 r2, listed_before (Message.of_row r1) (Message.of_row r2))
    (Cassandra.messages_of s conversation_id).
Proof.
  apply (StronglySorted_strengthen Messages.precedes);
    [|apply messages_of_NoDup
     |apply Sorted_StronglySorted; [apply _|apply messages_of_sorted]].
  intros r1 r2 H1 H2 Hne Hp. unfold listed_before, Messages.precedes in *.
  cbn. destruct Hp as [?|[Ht Hm]]; [by left|]. right. split; [done|].
  destruct (decide (Messages.message_id r1 = Messages.message_id r2));
    [|lia].
  destruct Hne. by apply (messages_of_key s conversation_id).
Qed.

(** X4.  The messages of a page of [get_conversation_messages] and
    of [get_messages_before_timestamp] come strictly newest first: each is
    later than those after it, or as late with a greater identifier. *)
Theorem message_pages_newest_first conversation_id before page limit c :
  StronglySorted listed_before
    (Page.data (MessageModel.get_conversation_messages conversation_id page
                  limit c).1)
  ∧ StronglySorted listed_before
      (Page.data (MessageModel.get_messages_before_timestamp conversation_id
                    before page limit c).1).
Proof.
  rewrite get_conversation_messages_run, get_messages_before_timestamp_run.
  cbn [fst Page.data]. cbn zeta.
  split;
    apply (StronglySorted_fmap Message.of_row
             (λ r1 r2, listed_before (Message.of_row r1) (Message.of_row r2)));
    [done| |done|];
    (eapply StronglySorted_sublist; [|apply messages_of_strictly_sorted]).
  - etrans; [apply slice_sublist|apply sublist_take].
  - etrans; [apply slice_sublist|]. etrans; [apply sublist_take|].
    apply sublist_filter.
Qed.

(** X5.  Every entry of a page of [get_user_conversations] has a
    [last_message_at] and a [last_message_content], both taken from a row
    of the user's index partition for the entry's conversation, and the
    entries come in the order of their [last_message_at], latest first. *)
Theorem conversation_list_latest_first user_id page limit c :
  let data :=
    Page.data (ConversationModel.get_user_conversations user_id page limit
                 c).1 in
  Forall (λ d, ∃ r, r ∈ Cassandra.conversations_of (store c) user_id
                    ∧ ConversationsByUser.conversation_id r
                      = Conversation.id d
                    ∧ Conversation.last_message_at d
                      = Some (ConversationsByUser.last_message_at r)
                    ∧ Conversation.last_message_content d
                      = Some (ConversationsByUser.last_message_content r))
    data
  ∧ StronglySorted no_older data.
Proof.
  intros data. subst data.
  rewrite get_user_conversations_run. cbn [fst Page.data]. cbn zeta.
  split.
  - rewrite Forall_forall. intros d (r & Hr & Hd)%list_elem_of_omap.
    exists r. split.
    + apply slice_elem_of in Hr. unfold Cassandra.limit_rows in Hr.
      eapply elem_of_sublist; [exact Hr|apply sublist_take].
    + unfold details_of in Hd.
      destruct (conversations (store c) !! _); by simplify_eq.
  - apply (StronglySorted_omap _ ConversationsByUser.precedes).
    + intros r1 r2 d1 d2 Hp H1 H2. unfold details_of in *.
      destruct (conversations (store c) !! _); [|done].
      destruct (conversations (store c) !! _); [|done].
      simplify_eq. unfold no_older, ConversationsByUser.precedes in *.
      cbn. lia.
    + eapply StronglySorted_sublist;
        [|apply Sorted_StronglySorted;
          [apply _|apply (conversations_of_sorted (store c) user_id)]].
      etrans; [apply slice_sublist|apply sublist_take].
Qed.

(** ** What a send changes, and what it leaves alone *)

Lemma create_or_get_conversation_messages rt now user1_id user2_id c :
  messages (store (ConversationModel.create_or_get_conversation rt now
                     user1_id user2_id c).2)
  = messages (store c).
Proof.
  rewrite create_or_get_conversation_store.
  by destruct (Cassandra.rows_for_pair _ _ _).
Qed.

(** The partitions of [messages] after a send: the message sent, and every
    earlier row that does not sit at its key. *)
Lemma create_message_messages rt message_id created_at now sender_id
    receiver_id content c conversation_id' r :
  let sent := MessageModel.create_message rt message_id created_at now
                sender_id receiver_id content c in
  let conversation_id := Message.conversation_id sent.1 in
  r ∈ Cassandra.messages_of (store sent.2) conversation_id' ↔
  (conversation_id' = conversation_id
   ∧ r = sent_row message_id created_at conversation_id sender_id
           receiver_id content)
  ∨ (r ∈ Cassandra.messages_of (store c) conversation_id'
     ∧ Messages.key_of r ≠ (conversation_id, created_at, message_id)).
Proof.
  intros sent conversation_id. subst conversation_id sent.
  rewrite create_message_run. cbn zeta.
  set (conversation_id :=
         Conversation.id (ConversationModel.create_or_get_conversation rt now
                            sender_id receiver_id c).1).
  cbn [fst snd Message.conversation_id store].
  rewrite !elem_of_messages_of.
  cbn [Cassandra.put_conversation_by_user Cassandra.set_summary
       Cassandra.put_message messages].
  rewrite create_or_get_conversation_messages, lookup_insert.
  destruct r as [rc rm rs rr rx rt']. unfold sent_row. cbn.
  case_decide; split; intros; destruct_and?; destruct_or?;
    destruct_and?; simplify_eq/=; auto 10; try congruence.
Qed.

(** X6.  When [create_message] sends a message later than every
    message the conversation holds, reading page 1 with limit 1 afterwards
    returns exactly the message sent, and [total] has grown by one. *)
Theorem create_message_then_first_page rt message_id created_at now sender_id
    receiver_id content c :
  let sent := MessageModel.create_message rt message_id created_at now
                sender_id receiver_id content c in
  let conversation_id := Message.conversation_id sent.1 in
  let read :=
    MessageModel.get_conversation_messages conversation_id 1 1 sent.2 in
  (∀ r, r ∈ Cassandra.messages_of (store c) conversation_id →
        Messages.created_at r < created_at) →
  Page.data read.1 = [sent.1]
  ∧ Page.total read.1
    = Z.of_nat (length (Cassandra.messages_of (store c) conversation_id)) + 1.
Proof.
  intros sent conversation_id read Hnewest. subst read.
  rewrite get_conversation_messages_run. cbn [fst Page.data Page.total].
  rewrite page_rows by done. change (Z.to_nat ((1 - 1) * 1)) with 0%nat.
  change (Z.to_nat 1) with 1%nat. rewrite drop_0.
  set (m := sent_row message_id created_at conversation_id sender_id
              receiver_id content).
  assert (∀ r, r ∈ Cassandra.messages_of (store sent.2) conversation_id ↔
               r ∈ m :: Cassandra.messages_of (store c) conversation_id)
    as Hrows.
  { intros r. rewrite elem_of_cons.
    pose proof (create_message_messages rt message_id created_at now
                  sender_id receiver_id content c conversation_id r) as Hchar.
    split.
    - intros [[_ ->]|[Hr _]]%Hchar; auto.
    - intros [->|Hr]; apply Hchar; [by left|]. right. split; [done|].
      intros Hkey. apply Hnewest in Hr.
      destruct r; unfold Messages.key_of in Hkey; cbn in *. simplify_eq. lia. }
  assert (m ∉ Cassandra.messages_of (store c) conversation_id) as Hfresh.
  { intros Hm%Hnewest. cbn in Hm. lia. }
  assert (Cassandra.messages_of (store sent.2) conversation_id
          ≡ₚ m :: Cassandra.messages_of (store c) conversation_id) as Hperm.
  { apply NoDup_Permutation; [apply messages_of_NoDup| |done].
    apply NoDup_cons. split; [done|apply messages_of_NoDup]. }
  split.
  - pose proof (messages_of_sorted (store sent.2) conversation_id) as Hsorted.
    apply (Sorted_StronglySorted _) in Hsorted.
    destruct (Cassandra.messages_of (store sent.2) conversation_id)
      as [|h rows] eqn:Heq.
    { by apply Permutation_nil_cons in Hperm. }
    cbn. f_equal.
    assert (h = m) as ->;
      [|by unfold m, conversation_id, sent; rewrite create_message_run].
    apply StronglySorted_cons in Hsorted as [Hall _].
    rewrite Forall_forall in Hall.
    assert (h ∈ m :: Cassandra.messages_of (store c) conversation_id) as Hh
      by (apply Hrows; left).
    apply elem_of_cons in Hh as [->|Hh]; [done|].
    assert (m ∈ h :: rows) as Hm by (apply Hrows; left).
    apply elem_of_cons in Hm as [->|Hm]; [done|].
    apply Hall in Hm. apply Hnewest in Hh.
    unfold Messages.precedes in Hm. cbn in Hm. lia.
  - rewrite Hperm. cbn [length]. lia.
Qed.

Lemma create_message_then_first_page_witness :
  Page.data
    (MessageModel.get_conversation_messages
       (Message.conversation_id
          (MessageModel.create_message Sample.runtime 901 1700000060000000
             1700000060000250 2 1 "yo" after_hi).1) 1 1
       (MessageModel.create_message Sample.runtime 901 1700000060000000
          1700000060000250 2 1 "yo" after_hi).2).1
  = [(MessageModel.create_message Sample.runtime 901 1700000060000000
        1700000060000250 2 1 "yo" after_hi).1].
Proof.
  apply (create_message_then_first_page Sample.runtime 901 1700000060000000
           1700000060000250 2 1 "yo" after_hi).
  intros r Hr. vm_compute in Hr. apply list_elem_of_singleton in Hr as ->.
  vm_compute. reflexivity.
Defined.

(** X7.  [create_message] is append-only on [messages]: the
    messages of every other conversation are listed as before, and no
    message with another identifier is removed or changed. *)
Theorem create_message_keeps_messages rt message_id created_at now sender_id
    receiver_id content c :
  let sent := MessageModel.create_message rt message_id created_at now
                sender_id receiver_id content c in
  let conversation_id := Message.conversation_id sent.1 in
  (∀ conversation_id',
     conversation_id' ≠ conversation_id →
     Cassandra.messages_of (store sent.2) conversation_id'
     = Cassandra.messages_of (store c) conversation_id')
  ∧ (∀ conversation_id' r,
       r ∈ Cassandra.messages_of (store c) conversation_id' →
       Messages.message_id r ≠ message_id →
       r ∈ Cassandra.messages_of (store sent.2) conversation_id').
Proof.
  intros sent conversation_id. split.
  - intros conversation_id' Hother. apply messages_of_ext. intros r.
    pose proof (create_message_messages rt message_id created_at now
                  sender_id receiver_id content c conversation_id' r) as Hchar.
    split.
    + intros [[? _]|[Hr _]]%Hchar; done.
    + intros Hr. apply Hchar. right. split; [done|].
      apply elem_of_messages_of in Hr as [_ Hr].
      unfold Messages.key_of. intros [= Hc _ _]. apply Hother.
      by rewrite <-Hr, Hc.
  - intros conversation_id' r Hr Hid.
    apply (create_message_messages rt message_id created_at now sender_id
             receiver_id content c conversation_id' r).
    right. split; [done|]. unfold Messages.key_of. by intros [= _ _ ?].
Qed.

Lemma create_or_get_conversation_other rt now user1_id user2_id c i :
  i ≠ Conversation.id (ConversationModel.create_or_get_conversation rt now
                         user1_id user2_id c).1 →
  conversations (store (ConversationModel.create_or_get_conversation rt now
                          user1_id user2_id c).2) !! i
  = conversations (store c) !! i.
Proof.
  rewrite create_or_get_conversation_run. cbn zeta.
  destruct (Cassandra.rows_for_pair _ _ _); cbn; [|done].
  intros Hi. by rewrite lookup_insert_ne.
Qed.

(** X8.  [create_message] leaves the record of every other
    conversation as [get_conversation] returned it before; and when the
    pair already had a conversation, the message goes to it and its record
    keeps its identifier, users and creation time, with the summary
    replaced by the message's time and content. *)
Theorem create_message_keeps_conversations rt message_id created_at now
    sender_id receiver_id content c :
  let sent := MessageModel.create_message rt message_id created_at now
                sender_id receiver_id content c in
  let conversation_id := Message.conversation_id sent.1 in
  (∀ i, i ≠ conversation_id →
        (ConversationModel.get_conversation i sent.2).1
        = (ConversationModel.get_conversation i c).1)
  ∧ (∀ r rows,
       Cassandra.rows_for_pair (store c) (Z.min sender_id receiver_id)
         (Z.max sender_id receiver_id) = r :: rows →
       conversation_id = Conversations.conversation_id r
       ∧ (ConversationModel.get_conversation conversation_id sent.2).1
         = Some {| Conversation.id := Conversations.conversation_id r;
                   Conversation.user1_id := Some (Z.min sender_id receiver_id);
                   Conversation.user2_id := Some (Z.max sender_id receiver_id);
                   Conversation.created_at := Conversations.created_at r;
                   Conversation.last_message_at := Some created_at;
                   Conversation.last_message_content := Some content |}).
Proof.
  intros sent conversation_id. subst conversation_id sent.
  rewrite create_message_run. cbn zeta.
  cbn [fst snd Message.conversation_id].
  split.
  - intros i Hi. rewrite !get_conversation_run.
    cbn [fst store conversations Cassandra.put_conversation_by_user
         Cassandra.set_summary Cassandra.put_message].
    rewrite lookup_insert_ne by done.
    by rewrite (create_or_get_conversation_other rt now sender_id receiver_id).
  - intros r rows Hrows. rewrite get_conversation_run.
    cbn [fst store conversations Cassandra.put_conversation_by_user
         Cassandra.set_summary Cassandra.put_message].
    rewrite lookup_insert_eq, create_or_get_conversation_run. cbn zeta.
    rewrite Hrows. cbn [fst snd store logged Conversation.of_row
                        Conversation.id].
    assert (r ∈ Cassandra.rows_for_pair (store c)
                  (Z.min sender_id receiver_id) (Z.max sender_id receiver_id))
      as (Hl & H1 & H2)%elem_of_rows_for_pair
      by (rewrite Hrows; apply list_elem_of_here).
    rewrite Hl. split; [done|]. destruct r; cbn in *. by subst.
Qed.

(** X9.  [create_message] leaves the index partition of every user
    who is neither sender nor receiver as it was, and makes the [total]
    that [get_user_conversations] reports for a participant grow by one
    whenever the participant had no row for the conversation at the
    message's timestamp (so the total counts sends, not conversations). *)
Theorem create_message_index_grows rt message_id created_at now sender_id
    receiver_id content c page limit :
  let sent := MessageModel.create_message rt message_id created_at now
                sender_id receiver_id content c in
  let conversation_id := Message.conversation_id sent.1 in
  (∀ u, u ≠ sender_id → u ≠ receiver_id →
        Cassandra.conversations_of (store sent.2) u
        = Cassandra.conversations_of (store c) u)
  ∧ (∀ u, u = sender_id ∨ u = receiver_id →
          (∀ r, r ∈ Cassandra.conversations_of (store c) u →
                ConversationsByUser.conversation_id r = conversation_id →
                ConversationsByUser.last_message_at r ≠ created_at) →
          Page.total
            (ConversationModel.get_user_conversations u page limit sent.2).1
          = Page.total
              (ConversationModel.get_user_conversations u page limit c).1 + 1).
Proof.
  intros sent conversation_id.
  pose proof (create_message_index rt message_id created_at now sender_id
                receiver_id content c) as Hchar.
  cbn zeta in Hchar. fold sent in Hchar. fold conversation_id in Hchar.
  split.
  - intros u Hs Hr. apply conversations_of_ext. intros r.
    rewrite Hchar. split.
    + intros [[? _]|[[? _]|[? _]]]; done.
    + intros Hin. right. right. split; [done|].
      apply elem_of_conversations_of in Hin as [_ Hu].
      unfold ConversationsByUser.key_of. split; intros [= ? _ _]; congruence.
  - intros u Hu Hfresh. rewrite !get_user_conversations_run.
    cbn [fst Page.total]. cbn zeta.
    set (new := index_row u (if decide (u = sender_id) then receiver_id
                             else sender_id)
                  conversation_id created_at content).
    assert (Cassandra.conversations_of (store sent.2) u
            ≡ₚ new :: Cassandra.conversations_of (store c) u) as ->;
      [|cbn [length]; lia].
    assert (new ∉ Cassandra.conversations_of (store c) u) as Hnew.
    { intros Hin. by apply Hfresh in Hin. }
    apply NoDup_Permutation; [apply conversations_of_NoDup| |].
    { apply NoDup_cons. split; [done|apply conversations_of_NoDup]. }
    intros r. rewrite Hchar, elem_of_cons. subst new. split.
    + intros [[-> ->]|[[-> ->]|[? _]]]; [| |by right]; left;
        case_decide; congruence.
    + intros [->|Hin].
      * case_decide; [left|right; left]; split; try done;
          destruct Hu; congruence.
      * right. right. split; [done|].
        pose proof Hin as [_ Hru]%elem_of_conversations_of.
        unfold ConversationsByUser.key_of.
        split; intros [= ? ? ?]; by eapply Hfresh.
Qed.

Lemma create_message_index_grows_witness :
  Page.total
    (ConversationModel.get_user_conversations 1 1 20
       (MessageModel.create_message Sample.runtime 901 1700000060000000
          1700000060000250 2 1 "yo" after_hi).2).1
  = Page.total (ConversationModel.get_user_conversations 1 1 20 after_hi).1
    + 1.
Proof.
  destruct (create_message_index_grows Sample.runtime 901 1700000060000000
              1700000060000250 2 1 "yo" after_hi 1 20) as [_ Hgrow].
  apply Hgrow; [by right|].
  intros r Hr _. vm_compute in Hr. apply list_elem_of_singleton in Hr as ->.
  vm_compute. discriminate.
Defined.

(** ** What [create_or_get_conversation] returns *)

(** X10.  Whether it finds or creates, the conversation that
    [create_or_get_conversation] returns carries the pair in order,
    [user1_id = min] and [user2_id = max], and [get_conversation] on its
    identifier right afterwards returns that same conversation. *)
Theorem create_or_get_conversation_result rt now user1_id user2_id c :
  let resolved :=
    ConversationModel.create_or_get_conversation rt now user1_id user2_id c in
  Conversation.user1_id resolved.1 = Some (Z.min user1_id user2_id)
  ∧ Conversation.user2_id resolved.1 = Some (Z.max user1_id user2_id)
  ∧ (ConversationModel.get_conversation (Conversation.id resolved.1)
       resolved.2).1 = Some resolved.1.
Proof.
  intros resolved. subst resolved.
  rewrite get_conversation_run, create_or_get_conversation_run. cbn zeta.
  destruct (Cassandra.rows_for_pair _ _ _) as [|r rows] eqn:Hrows;
    cbn [fst snd store logged Conversation.of_row Conversation.id
         Conversation.user1_id Conversation.user2_id].
  - cbn. by rewrite lookup_insert_eq.
  - assert (r ∈ Cassandra.rows_for_pair (store c) (Z.min user1_id user2_id)
                  (Z.max user1_id user2_id))
      as (Hl & H1 & H2)%elem_of_rows_for_pair
      by (rewrite Hrows; apply list_elem_of_here).
    rewrite Hl. by destruct r.
Qed.

(** X11.  When [create_or_get_conversation] creates a
    conversation whose identifier is already held by the conversation of
    another pair, it replaces that row: afterwards the identifier resolves
    to the new pair's conversation and a scan for the other pair meets no
    row. *)
Theorem create_or_get_conversation_collision rt now user1_id user2_id c v
    lower_id' higher_id' :
  reachable rt c →
  Cassandra.rows_for_pair (store c) (Z.min user1_id user2_id)
    (Z.max user1_id user2_id) = [] →
  conversations (store c)
    !! ConversationModel.new_conversation_id rt (Z.min user1_id user2_id)
         (Z.max user1_id user2_id) now = Some v →
  Conversations.col_user1_id v = Some lower_id' →
  Conversations.col_user2_id v = Some higher_id' →
  let created :=
    ConversationModel.create_or_get_conversation rt now user1_id user2_id c in
  Cassandra.rows_for_pair (store created.2) lower_id' higher_id' = []
  ∧ (ConversationModel.get_conversation (Conversation.id created.1)
       created.2).1
    = Some {| Conversation.id := Conversation.id created.1;
              Conversation.user1_id := Some (Z.min user1_id user2_id);
              Conversation.user2_id := Some (Z.max user1_id user2_id);
              Conversation.created_at := Some now;
              Conversation.last_message_at := None;
              Conversation.last_message_content := None |}.
Proof.
  intros Hreach Hnone Hv H1 H2 created. subst created.
  rewrite get_conversation_run, create_or_get_conversation_run. cbn zeta.
  rewrite Hnone.
  cbn [fst snd store Conversation.of_row Conversation.id new_row
       Conversations.conversation_id Cassandra.put_conversation conversations].
  rewrite lookup_insert_eq. split; [|done].
  apply reachable_pair_unique in Hreach.
  set (i := ConversationModel.new_conversation_id _ _ _ _) in *.
  destruct (Cassandra.rows_for_pair _ lower_id' higher_id') as [|r rows]
    eqn:Hrows; [done|]. exfalso.
  assert (r ∈ Cassandra.rows_for_pair
                (Cassandra.put_conversation
                   (new_row rt (Z.min user1_id user2_id)
                      (Z.max user1_id user2_id) now) (store c))
                lower_id' higher_id')
    as (Hl & Hr1 & Hr2)%elem_of_rows_for_pair
    by (rewrite Hrows; apply list_elem_of_here).
  cbn [Cassandra.put_conversation conversations new_row
       Conversations.conversation_id] in Hl. fold i in Hl.
  rewrite lookup_insert in Hl. case_decide as Hi.
  - apply (not_elem_of_nil (Conversations.row_of (i, v))). rewrite <-Hnone.
    apply elem_of_rows_for_pair. destruct r, v; cbn in *. by simplify_eq.
  - apply Hi. symmetry.
    eapply (Hreach _ _ _ _ Hl Hv); destruct r; cbn in *; subst; eauto.
Qed.

Lemma create_or_get_conversation_collision_witness :
  Cassandra.rows_for_pair
    (store (ConversationModel.create_or_get_conversation colliding_runtime
              1700000060000250 3 4
              (ConversationModel.create_or_get_conversation colliding_runtime
                 1700000000000250 1 2 (connect empty_store)).2).2) 1 2 = [].
Proof.
  eapply (create_or_get_conversation_collision colliding_runtime
            1700000060000250 3 4
            (ConversationModel.create_or_get_conversation colliding_runtime
               1700000000000250 1 2 (connect empty_store)).2).
  - repeat constructor.
  - vm_compute. reflexivity.
  - vm_compute. reflexivity.
  - reflexivity.
  - reflexivity.
Defined.

(** ** What holds of the tables the models bring about *)

Lemma well_formed_empty : well_formed empty_store.
Proof. split; intros ? ? H; cbn in H; by rewrite lookup_empty in H. Qed.

Lemma well_formed_put_message r s :
  well_formed s → well_formed (Cassandra.put_message r s).
Proof. done. Qed.

Lemma well_formed_put_conversation s lower_id higher_id now i :
  lower_id ≤ higher_id →
  well_formed s →
  well_formed
    (Cassandra.put_conversation
       {| Conversations.conversation_id := i;
          Conversations.user1_id := Some lower_id;
          Conversations.user2_id := Some higher_id;
          Conversations.created_at := Some now;
          Conversations.last_message_at := None;
          Conversations.last_message_content := None |} s).
Proof.
  intros Hle [Hrows Hrefs]. split;
    cbn [Cassandra.put_conversation conversations conversations_by_user].
  - intros j v. rewrite lookup_insert. case_decide; [|by apply Hrows].
    intros [= <-]. cbn. eauto 10.
  - intros k v Hk. rewrite lookup_insert. case_decide; [done|by eapply Hrefs].
Qed.

Lemma well_formed_set_summary last_message_at last_message_content i s :
  is_Some (conversations s !! i) →
  well_formed s →
  well_formed (Cassandra.set_summary last_message_at last_message_content i s).
Proof.
  intros [old Hold] [Hrows Hrefs]. split;
    cbn [Cassandra.set_summary conversations conversations_by_user].
  - intros j v. rewrite lookup_insert. case_decide; [|by apply Hrows].
    intros [= <-]. rewrite Hold. cbn. by apply (Hrows i).
  - intros k v Hk. rewrite lookup_insert. case_decide; [done|by eapply Hrefs].
Qed.

Lemma well_formed_put_conversation_by_user r s :
  is_Some (conversations s !! ConversationsByUser.conversation_id r) →
  well_formed s →
  well_formed (Cassandra.put_conversation_by_user r s).
Proof.
  intros Hr [Hrows Hrefs]. split; [done|].
  cbn [Cassandra.put_conversation_by_user conversations
       conversations_by_user].
  intros k v. rewrite lookup_insert. case_decide; [|by apply Hrefs].
  intros _. subst k. by destruct r.
Qed.

Lemma well_formed_create_or_get_conversation rt now user1_id user2_id c :
  well_formed (store c) →
  well_formed (store (ConversationModel.create_or_get_conversation rt now
                        user1_id user2_id c).2).
Proof.
  intros Hwf. rewrite create_or_get_conversation_store.
  destruct (Cassandra.rows_for_pair _ _ _); [|done].
  apply well_formed_put_conversation; [lia|done].
Qed.

Lemma create_or_get_conversation_stored rt now user1_id user2_id c :
  is_Some (conversations
             (store (ConversationModel.create_or_get_conversation rt now
                       user1_id user2_id c).2)
           !! Conversation.id
                (ConversationModel.create_or_get_conversation rt now user1_id
                   user2_id c).1).
Proof.
  rewrite create_or_get_conversation_run. cbn zeta.
  destruct (Cassandra.rows_for_pair _ _ _) as [|r rows] eqn:Hrows;
    cbn [fst snd store logged Conversation.of_row Conversation.id].
  - cbn. by rewrite lookup_insert_eq.
  - assert (r ∈ Cassandra.rows_for_pair (store c) (Z.min user1_id user2_id)
                  (Z.max user1_id user2_id))
      as (Hl & _)%elem_of_rows_for_pair
      by (rewrite Hrows; apply list_elem_of_here).
    by rewrite Hl.
Qed.

Lemma reachable_well_formed rt c : reachable rt c → well_formed (store c).
Proof.
  induction 1 as [|c ??????? IH|c ???? IH|c ?? IH|c ???? IH|c ???? IH
                  |c ????? IH].
  - apply well_formed_empty.
  - rewrite create_message_run. cbn [snd store].
    pose proof (create_or_get_conversation_stored rt now sender_id
                  receiver_id c) as Hstored.
    pose proof (well_formed_create_or_get_conversation rt now sender_id
                  receiver_id c IH) as Hwf.
    assert (∀ s, is_Some (conversations
                            (Cassandra.set_summary created_at content
                               (Conversation.id
                                  (ConversationModel.create_or_get_conversation
                                     rt now sender_id receiver_id c).1) s)
                          !! Conversation.id
                               (ConversationModel.create_or_get_conversation
                                  rt now sender_id receiver_id c).1)) as Hset.
    { intros s. cbn. by rewrite lookup_insert_eq. }
    apply well_formed_put_conversation_by_user; [apply Hset|].
    apply well_formed_put_conversation_by_user; [apply Hset|].
    apply well_formed_set_summary; [done|].
    by apply well_formed_put_message.
  - by apply well_formed_create_or_get_conversation.
  - by rewrite get_conversation_run.
  - by rewrite get_user_conversations_run.
  - by rewrite get_conversation_messages_run.
  - by rewrite get_messages_before_timestamp_run.
Qed.

(** X12.  On tables the models have brought about every index
    row names a conversation that has a row, so [get_user_conversations]
    leaves nothing out: from the first page on it returns one entry for
    each index row of the page, [min limit (total - offset)] entries. *)
Theorem reachable_conversation_list_complete rt c user_id page limit :
  reachable rt c →
  1 ≤ page →
  let result := ConversationModel.get_user_conversations user_id page limit c in
  ConversationsByUser.conversation_id
    <$> take (Z.to_nat limit) (drop (Z.to_nat ((page - 1) * limit))
          (Cassandra.conversations_of (store c) user_id))
  = Conversation.id <$> Page.data result.1
  ∧ Z.of_nat (length (Page.data result.1))
    = Z.max 0 (Z.min limit (Page.total result.1 - (page - 1) * limit)).
Proof.
  intros [_ Hrefs]%reachable_well_formed Hpage result. subst result.
  rewrite get_user_conversations_run. cbn [fst Page.data Page.total].
  cbn zeta. rewrite page_rows by done.
  set (rows := take _ _).
  assert (∀ r, r ∈ rows →
               is_Some (conversations (store c)
                          !! ConversationsByUser.conversation_id r)) as Hall.
  { intros r Hr.
    assert (r ∈ Cassandra.conversations_of (store c) user_id)
      as [Hl _]%elem_of_conversations_of.
    { eapply elem_of_sublist; [exact Hr|].
      etrans; [apply sublist_take|apply sublist_drop]. }
    apply Hrefs in Hl. by destruct r. }
  assert (ConversationsByUser.conversation_id <$> rows
          = Conversation.id <$> omap (details_of (store c)) rows) as Hids.
  { clear -Hall. induction rows as [|r rows IH]; [done|]. cbn.
    unfold details_of at 1.
    destruct (Hall r) as [v ->]; [by left|]. cbn. f_equal.
    apply IH. intros r' Hr'. apply Hall. by right. }
  split; [done|].
  rewrite <-(length_fmap Conversation.id), <-Hids, length_fmap.
  unfold rows. rewrite length_take, length_drop.
  destruct (decide (0 ≤ limit)); [|lia].
  assert (0 ≤ (page - 1) * limit) by nia. lia.
Qed.

Lemma reachable_conversation_list_complete_witness :
  Z.of_nat (length (Page.data
              (ConversationModel.get_user_conversations 1 1 20
                 hi_then_yo).1))
  = Z.max 0 (Z.min 20 (Page.total
                         (ConversationModel.get_user_conversations 1 1 20
                            hi_then_yo).1 - (1 - 1) * 20)).
Proof.
  apply (reachable_conversation_list_complete Sample.runtime hi_then_yo 1 1
           20); [|lia].
  unfold hi_then_yo, after_hi. repeat constructor.
Defined.

(** X13.  On tables the models have brought about, every
    conversation that [get_conversation] returns has its identifier, two
    users in order ([user1_id <= user2_id]) and a creation time. *)
Theorem reachable_conversations_canonical rt c conversation_id d :
  reachable rt c →
  (ConversationModel.get_conversation conversation_id c).1 = Some d →
  Conversation.id d = conversation_id
  ∧ ∃ lower_id higher_id created_at,
      Conversation.user1_id d = Some lower_id
      ∧ Conversation.user2_id d = Some higher_id
      ∧ lower_id ≤ higher_id
      ∧ Conversation.created_at d = Some created_at.
Proof.
  intros [Hrows _]%reachable_well_formed. rewrite get_conversation_run.
  cbn [fst].
  destruct (conversations (store c) !! conversation_id) as [v|] eqn:Hv;
    [|done].
  intros [= <-]. split; [done|]. by apply (Hrows conversation_id).
Qed.

Lemma reachable_conversations_canonical_witness :
  Conversation.id
    {| Conversation.id := 27948899; Conversation.user1_id := Some 1;
       Conversation.user2_id := Some 2;
       Conversation.created_at := Some 1700000000000250;
       Conversation.last_message_at := Some 1700000060000000;
       Conversation.last_message_content := Some "yo" |} = 27948899
  ∧ ∃ lower_id higher_id created_at,
      Some 1 = Some lower_id ∧ Some 2 = Some higher_id
      ∧ lower_id ≤ higher_id ∧ Some 1700000000000250 = Some created_at.
Proof.
  apply (reachable_conversations_canonical Sample.runtime hi_then_yo 27948899).
  - unfold hi_then_yo, after_hi. repeat constructor.
  - vm_compute. reflexivity.
Defined.

(** X14.  On tables the models have brought about, two
    identifiers whose conversations hold the same pair of users are the
    same identifier. *)
Theorem reachable_one_conversation_per_pair rt c i j d1 d2 :
  reachable rt c →
  (ConversationModel.get_conversation i c).1 = Some d1 →
  (ConversationModel.get_conversation j c).1 = Some d2 →
  Conversation.user1_id d1 = Conversation.user1_id d2 →
  Conversation.user2_id d1 = Conversation.user2_id d2 →
  i = j.
Proof.
  intros Hreach. pose proof (reachable_pair_unique rt c Hreach) as Huniq.
  apply reachable_well_formed in Hreach as [Hrows _].
  rewrite !get_conversation_run. cbn [fst].
  destruct (conversations (store c) !! i) as [v|] eqn:Hv; [|done].
  destruct (conversations (store c) !! j) as [w|] eqn:Hw; [|done].
  intros [= <-] [= <-] H1 H2. cbn in H1, H2.
  destruct (Hrows i v Hv) as (lo & hi & t & Hlo & Hhi & _).
  eapply (Huniq _ _ _ _ Hv Hw); [by rewrite Hlo|by rewrite Hhi|done..].
Qed.

Lemma reachable_one_conversation_per_pair_witness : 27948899 = 27948899.
Proof.
  eapply (reachable_one_conversation_per_pair Sample.runtime hi_then_yo
            27948899 27948899).
  - unfold hi_then_yo, after_hi. repeat constructor.
  - vm_compute. reflexivity.
  - vm_compute. reflexivity.
  - reflexivity.
  - reflexivity.
Defined.

(** ** Messages before a timestamp *)

Section filter_facts.
Context {A : Type} (P : A → Prop) `{∀ x, Decision (P x)}.

Lemma filter_all (l : list A) : Forall P l → filter P l = l.
Proof.
  induction 1 as [|x l Hx Hl IH]; [done|]. by rewrite filter_cons_True, IH.
Qed.

Lemma filter_none (l : list A) : Forall (λ x, ¬ P x) l → filter P l = [].
Proof.
  induction 1 as [|x l Hx Hl IH]; [done|]. by rewrite filter_cons_False.
Qed.

End filter_facts.

(** In a partition, the rows before a timestamp are what is left after the
    rows at or after it. *)
Lemma messages_before_suffix s conversation_id before :
  filter (λ r, Messages.created_at r < before)
    (Cassandra.messages_of s conversation_id)
  = drop (length (filter (λ r, before ≤ Messages.created_at r)
                    (Cassandra.messages_of s conversation_id)))
      (Cassandra.messages_of s conversation_id).
Proof.
  pose proof (messages_of_sorted s conversation_id) as Hsorted.
  apply (Sorted_StronglySorted _) in Hsorted.
  induction Hsorted as [|r rows Hrows IH Hall]; [done|].
  destruct (decide (Messages.created_at r < before)) as [Hlt|Hge].
  - rewrite (filter_all (λ r, Messages.created_at r < before)).
    + rewrite (filter_none (λ r, before ≤ Messages.created_at r)); [done|].
      constructor; [lia|]. eapply Forall_impl; [exact Hall|].
      intros r'. unfold Messages.precedes. cbn. lia.
    + constructor; [done|]. eapply Forall_impl; [exact Hall|].
      intros r'. unfold Messages.precedes. cbn. lia.
  - rewrite filter_cons_False by done.
    rewrite (filter_cons_True (λ r, before ≤ Messages.created_at r)) by lia.
    by rewrite IH.
Qed.

(** From the first page on, a page before a timestamp is a run of the
    partition that starts behind the rows at or after the timestamp. *)
Lemma messages_before_page conversation_id before_timestamp page limit c :
  1 ≤ page →
  let all := Cassandra.messages_of (store c) conversation_id in
  let newer :=
    length (filter (λ r, before_timestamp ≤ Messages.created_at r) all) in
  let result :=
    MessageModel.get_messages_before_timestamp conversation_id
      before_timestamp page limit c in
  Page.data result.1
  = Message.of_row <$>
      take (Z.to_nat limit)
        (drop (newer + Z.to_nat ((page - 1) * limit)) all)
  ∧ Page.total result.1 = Z.of_nat (length all) - Z.of_nat newer.
Proof.
  intros Hpage all newer result. subst result.
  rewrite get_messages_before_timestamp_run.
  cbn [fst snd Page.data Page.total]. cbn zeta.
  rewrite page_rows by done. fold all.
  unfold all at 1 3. rewrite messages_before_suffix. fold all newer.
  rewrite drop_drop, length_drop.
  assert (newer ≤ length all)%nat by apply length_filter.
  split; [done|lia].
Qed.

(** X15.  From the first page on, a page of
    [get_messages_before_timestamp] is a run of the conversation's
    newest-first list that starts [offset] places behind the messages at or
    after the timestamp; [total] is the number of messages before the
    timestamp; [page] and [limit] come back unchanged and no table
    changes. *)
Theorem get_messages_before_timestamp_page conversation_id before_timestamp
    page limit c :
  1 ≤ page →
  let all := Cassandra.messages_of (store c) conversation_id in
  let newer :=
    length (filter (λ r, before_timestamp ≤ Messages.created_at r) all) in
  let result :=
    MessageModel.get_messages_before_timestamp conversation_id
      before_timestamp page limit c in
  Page.data result.1
  = Message.of_row <$>
      take (Z.to_nat limit)
        (drop (newer + Z.to_nat ((page - 1) * limit)) all)
  ∧ Page.total result.1 = Z.of_nat (length all) - Z.of_nat newer
  ∧ Page.page result.1 = page ∧ Page.limit result.1 = limit
  ∧ store result.2 = store c.
Proof.
  intros Hpage all newer result.
  destruct (messages_before_page conversation_id before_timestamp page limit
              c Hpage) as [Hdata Htotal].
  split; [exact Hdata|]. split; [exact Htotal|].
  subst result. by rewrite get_messages_before_timestamp_run.
Qed.

Lemma get_messages_before_timestamp_page_witness :
  Message.content <$>
    Page.data (MessageModel.get_messages_before_timestamp 27948899
                 1700000060000000 1 20 hi_then_yo).1 = ["hi"].
Proof.
  destruct (get_messages_before_timestamp_page 27948899 1700000060000000 1 20
              hi_then_yo ltac:(lia)) as (Hdata & _).
  etrans; [exact (f_equal (fmap Message.content) Hdata)|].
  vm_compute. reflexivity.
Defined.

(** X16.  In a conversation whose messages have pairwise different
    timestamps, asking for the messages before the timestamp of the
    message at place [k] returns, on page 1, the [limit] messages that
    follow it, and as [total] the number of messages behind it. *)
Theorem load_older_messages conversation_id limit c (k : nat) x :
  let all := Cassandra.messages_of (store c) conversation_id in
  all !! k = Some x →
  (∀ r1 r2, r1 ∈ all → r2 ∈ all →
            Messages.created_at r1 = Messages.created_at r2 → r1 = r2) →
  let result :=
    MessageModel.get_messages_before_timestamp conversation_id
      (Messages.created_at x) 1 limit c in
  Page.data result.1
  = Message.of_row <$> take (Z.to_nat limit) (drop (S k) all)
  ∧ Page.total result.1 = Z.of_nat (length all) - Z.of_nat (S k).
Proof.
  intros all Hk Hdistinct result.
  destruct (messages_before_page conversation_id (Messages.created_at x) 1
              limit c ltac:(lia)) as (Hdata & Htotal).
  fold all in Hdata, Htotal. fold result in Hdata, Htotal.
  assert (length (filter (λ r, Messages.created_at x ≤ Messages.created_at r)
                    all) = S k) as Hnewer.
  { pose proof (messages_of_strictly_sorted (store c) conversation_id)
      as Hsorted. fold all in Hsorted.
    rewrite <-(take_drop_middle all k x Hk) in Hsorted |- *.
    assert (x ∈ all) as Hx by (by eapply list_elem_of_lookup_2).
    assert (∀ r, r ∈ take k all → r ∈ all) as Htake
      by (intros r Hr; eapply elem_of_sublist; [exact Hr|apply sublist_take]).
    assert (∀ r, r ∈ drop (S k) all → r ∈ all) as Hdrop
      by (intros r Hr; eapply elem_of_sublist; [exact Hr|apply sublist_drop]).
    apply StronglySorted_app in Hsorted as (Hcross & _ & Htail).
    apply StronglySorted_cons in Htail as [Hafter _].
    rewrite Forall_forall in Hafter.
    rewrite filter_app, filter_cons_True by lia.
    rewrite (filter_all (λ r, Messages.created_at x ≤ Messages.created_at r)).
    - rewrite (filter_none
                 (λ r, Messages.created_at x ≤ Messages.created_at r)).
      + rewrite length_app, length_take_le; [cbn; lia|].
        apply lookup_lt_Some in Hk. lia.
      + apply Forall_forall. intros r Hr Hle.
        pose proof (Hafter r Hr) as Hb. unfold listed_before in Hb. cbn in Hb.
        assert (r = x) as -> by (apply Hdistinct; [auto..|lia]). lia.
    - apply Forall_forall. intros r Hr.
      pose proof (Hcross r x Hr ltac:(by left)) as Hb.
      unfold listed_before in Hb. cbn in Hb. lia. }
  rewrite Hnewer in Hdata, Htotal. split; [|done].
  rewrite Hdata. change (Z.to_nat ((1 - 1) * limit)) with 0%nat.
  by rewrite Nat.add_0_r.
Qed.

Lemma load_older_messages_witness :
  Message.content <$>
    Page.data (MessageModel.get_messages_before_timestamp 27948899
                 (Messages.created_at
                    (sent_row 901 1700000060000000 27948899 2 1 "yo"))
                 1 20 hi_then_yo).1 = ["hi"].
Proof.
  edestruct (load_older_messages 27948899 20 hi_then_yo 0
               (sent_row 901 1700000060000000 27948899 2 1 "yo"))
    as (Hdata & _).
  - vm_compute. reflexivity.
  - intros r1 r2 H1 H2. vm_compute in H1, H2.
    apply elem_of_cons in H1 as [->|H1%list_elem_of_singleton];
      apply elem_of_cons in H2 as [->|H2%list_elem_of_singleton];
      subst; cbn; intros; (done || lia).
  - etrans; [exact (f_equal (fmap Message.content) Hdata)|].
    vm_compute. reflexivity.
Defined.

(** ** Replies *)

(** After a send, the scan for the pair meets the row of the message's
    conversation. *)
Lemma create_message_pair_row rt message_id created_at now sender_id
    receiver_id content c :
  let sent := MessageModel.create_message rt message_id created_at now
                sender_id receiver_id content c in
  ∃ r, r ∈ Cassandra.rows_for_pair (store sent.2)
             (Z.min sender_id receiver_id) (Z.max sender_id receiver_id)
       ∧ Conversations.conversation_id r = Message.conversation_id sent.1.
Proof.
  intros sent. subst sent. rewrite create_message_run. cbn zeta.
  cbn [fst snd Message.conversation_id store].
  set (resolved := ConversationModel.create_or_get_conversation rt now
                     sender_id receiver_id c).
  assert (∃ v, conversations (store resolved.2) !! Conversation.id resolved.1
               = Some v
               ∧ Conversations.col_user1_id v
                 = Some (Z.min sender_id receiver_id)
               ∧ Conversations.col_user2_id v
                 = Some (Z.max sender_id receiver_id)) as (v & Hv & H1 & H2).
  { subst resolved. rewrite create_or_get_conversation_run. cbn zeta.
    destruct (Cassandra.rows_for_pair _ _ _) as [|r rows] eqn:Hrows;
      cbn [fst snd store logged Conversation.of_row Conversation.id new_row
           Conversations.conversation_id Cassandra.put_conversation
           conversations].
    - rewrite lookup_insert_eq. eauto.
    - assert (r ∈ Cassandra.rows_for_pair (store c)
                    (Z.min sender_id receiver_id)
                    (Z.max sender_id receiver_id))
        as (Hl & Hr1 & Hr2)%elem_of_rows_for_pair
        by (rewrite Hrows; apply list_elem_of_here).
      rewrite Hl. destruct r; cbn in *. eauto. }
  exists {| Conversations.conversation_id := Conversation.id resolved.1;
            Conversations.user1_id := Some (Z.min sender_id receiver_id);
            Conversations.user2_id := Some (Z.max sender_id receiver_id);
            Conversations.created_at := Conversations.col_created_at v;
            Conversations.last_message_at := Some created_at;
            Conversations.last_message_content := Some content |}.
  split; [|done]. apply elem_of_rows_for_pair. split; [|done].
  unfold Cassandra.put_conversation_by_user, Cassandra.set_summary,
    Cassandra.put_message, Conversations.columns_of.
  cbn [conversations Conversations.conversation_id Conversations.user1_id
       Conversations.user2_id Conversations.created_at
       Conversations.last_message_at Conversations.last_message_content].
  rewrite lookup_insert_eq, Hv. cbn. by rewrite H1, H2.
Qed.

(** X17.  On tables the models have brought about, a message sent
    after another one between the same two users, in either direction and
    at any time, gets the same [conversation_id]. *)
Theorem reply_stays_in_conversation rt c message_id created_at now sender_id
    receiver_id content message_id' created_at' now' content' :
  reachable rt c →
  let sent := MessageModel.create_message rt message_id created_at now
                sender_id receiver_id content c in
  let reply := MessageModel.create_message rt message_id' created_at' now'
                 receiver_id sender_id content' sent.2 in
  let again := MessageModel.create_message rt message_id' created_at' now'
                 sender_id receiver_id content' sent.2 in
  Message.conversation_id reply.1 = Message.conversation_id sent.1
  ∧ Message.conversation_id again.1 = Message.conversation_id sent.1.
Proof.
  intros Hreach sent reply again.
  assert (Message.conversation_id again.1 = Message.conversation_id sent.1)
    as Hagain.
  { destruct (create_message_pair_row rt message_id created_at now sender_id
                receiver_id content c) as (r & Hr & Hid). fold sent in Hr, Hid.
    assert (reachable rt sent.2) as Hreach1 by by constructor.
    apply reachable_pair_unique in Hreach1.
    apply (rows_for_pair_unique _ (Z.min sender_id receiver_id)
             (Z.max sender_id receiver_id)) in Hreach1.
    subst again. rewrite create_message_run. cbn zeta.
    cbn [fst Message.conversation_id].
    rewrite create_or_get_conversation_run. cbn zeta.
    destruct (Cassandra.rows_for_pair (store sent.2) _ _) as [|r' rows];
      [by apply not_elem_of_nil in Hr|].
    destruct rows; [|cbn in Hreach1; lia].
    apply list_elem_of_singleton in Hr as ->. cbn. done. }
  split; [|done]. rewrite <-Hagain. subst reply again.
  rewrite !create_message_run. cbn zeta. cbn [fst Message.conversation_id].
  by rewrite (create_or_get_conversation_comm rt now' receiver_id sender_id).
Qed.

Lemma reply_stays_in_conversation_witness :
  Message.conversation_id
    (MessageModel.create_message Sample.runtime 901 1700000060000000
       1700000060000250 2 1 "yo"
       (MessageModel.create_message Sample.runtime 900 1700000000000000
          1700000000000250 1 2 "hi" (connect empty_store)).2).1
  = Message.conversation_id
      (MessageModel.create_message Sample.runtime 900 1700000000000000
         1700000000000250 1 2 "hi" (connect empty_store)).1.
Proof.
  apply (reply_stays_in_conversation Sample.runtime (connect empty_store)
           900 1700000000000000 1700000000000250 1 2 "hi"
           901 1700000060000000 1700000060000250 "yo").
  constructor.
Defined.

(** ** The handlers *)

Lemma controller_get_conversation_run conversation_id c :
  ConversationController.get_conversation conversation_id c
  = (match conversations (store c) !! conversation_id with
     | None =>
       Http.Raises
         {| Http.status_code := 404;
            Http.detail := "Conversation with ID " +:+ pretty conversation_id
                           +:+ " not found" |}
     | Some v =>
       Http.Returns
         {| ConversationResponse.id := conversation_id;
            ConversationResponse.user1_id := Conversations.col_user1_id v;
            ConversationResponse.user2_id := Conversations.col_user2_id v;
            ConversationResponse.last_message_at :=
              Conversations.col_created_at v;
            ConversationResponse.last_message_content :=
              Conversations.col_last_message_content v |}
     end, logged [SelectConversation conversation_id] c).
Proof.
  unfold ConversationController.get_conversation. unfold bind at 1.
  rewrite get_conversation_run.
  by destruct (conversations (store c) !! conversation_id).
Qed.

(** X18.  When the model finds no conversation, the handler
    [get_conversation] raises an [HTTPException] with status 404 and the
    detail "Conversation with ID <id> not found" (not a 500), and changes
    no table. *)
Theorem controller_get_conversation_not_found conversation_id c :
  (ConversationModel.get_conversation conversation_id c).1 = None →
  (ConversationController.get_conversation conversation_id c).1
  = Http.Raises
      {| Http.status_code := 404;
         Http.detail := "Conversation with ID " +:+ pretty conversation_id
                        +:+ " not found" |}
  ∧ store (ConversationController.get_conversation conversation_id c).2
    = store c.
Proof.
  rewrite get_conversation_run, controller_get_conversation_run. cbn [fst snd].
  by destruct (conversations (store c) !! conversation_id).
Qed.

Lemma controller_get_conversation_not_found_witness :
  (ConversationController.get_conversation 5 hi_then_yo).1
  = Http.Raises
      {| Http.status_code := 404;
         Http.detail := "Conversation with ID 5 not found" |}.
Proof.
  apply (controller_get_conversation_not_found 5 hi_then_yo).
  vm_compute. reflexivity.
Defined.

Lemma send_message_run rt message_id created_at now message_data c :
  MessageController.send_message rt message_id created_at now message_data c
  = (Http.Returns
       (MessageModel.create_message rt message_id created_at now
          (MessageCreate.sender_id message_data)
          (MessageCreate.receiver_id message_data)
          (MessageCreate.content message_data) c).1,
     (MessageModel.create_message rt message_id created_at now
        (MessageCreate.sender_id message_data)
        (MessageCreate.receiver_id message_data)
        (MessageCreate.content message_data) c).2).
Proof.
  unfold MessageController.send_message, bind.
  rewrite create_message_run. done.
Qed.

(** X19.  The handler [send_message] returns the message built
    from the request, with the conversation's identifier; the handler
    [get_conversation] on that identifier then returns the conversation
    with the pair in order and the message's content as
    [last_message_content], while its [last_message_at] is the
    conversation's creation time (the placeholder of the source), not the
    message's time. *)
Theorem send_message_then_get_conversation rt message_id created_at now
    message_data c :
  let sender_id := MessageCreate.sender_id message_data in
  let receiver_id := MessageCreate.receiver_id message_data in
  let content := MessageCreate.content message_data in
  let sent :=
    MessageController.send_message rt message_id created_at now message_data
      c in
  let resolved :=
    ConversationModel.create_or_get_conversation rt now sender_id receiver_id
      c in
  let conversation_id := Conversation.id resolved.1 in
  sent.1
  = Http.Returns
      {| Message.id := message_id; Message.sender_id := sender_id;
         Message.receiver_id := receiver_id; Message.content := content;
         Message.created_at := created_at;
         Message.conversation_id := conversation_id |}
  ∧ (ConversationController.get_conversation conversation_id sent.2).1
    = Http.Returns
        {| ConversationResponse.id := conversation_id;
           ConversationResponse.user1_id := Some (Z.min sender_id receiver_id);
           ConversationResponse.user2_id := Some (Z.max sender_id receiver_id);
           ConversationResponse.last_message_at :=
             Conversation.created_at resolved.1;
           ConversationResponse.last_message_content := Some content |}.
Proof.
  destruct message_data as [s r x]. cbn zeta.
  rewrite send_message_run.
  cbn [MessageCreate.sender_id MessageCreate.receiver_id MessageCreate.content].
  rewrite create_message_run. cbn zeta. cbn [fst snd].
  split; [done|].
  rewrite controller_get_conversation_run.
  cbn [fst snd store conversations Cassandra.put_conversation_by_user
       Cassandra.set_summary Cassandra.put_message].
  rewrite lookup_insert_eq.
  cbn [Conversations.col_user1_id Conversations.col_user2_id
       Conversations.col_created_at Conversations.col_last_message_at
       Conversations.col_last_message_content].
  rewrite create_or_get_conversation_run. cbn zeta.
  destruct (Cassandra.rows_for_pair _ _ _) as [|row rows] eqn:Hrows;
    cbn [fst snd store logged Conversation.of_row Conversation.id new_row
         Conversation.created_at
         Conversations.conversation_id Cassandra.put_conversation
         conversations].
  - rewrite lookup_insert_eq. done.
  - assert (row ∈ Cassandra.rows_for_pair (store c) (Z.min s r) (Z.max s r))
      as (Hl & H1 & H2)%elem_of_rows_for_pair
      by (rewrite Hrows; apply list_elem_of_here).
    rewrite Hl. cbn. destruct row; cbn in *. by subst.
Qed.

(** ** The set-up script *)

Lemma wait_from_spec connects attempt remaining slept :
  match SetupDb.wait_from connects attempt remaining slept with
  | (SetupDb.Ready i, t) =>
    (attempt ≤ i < attempt + remaining)%nat ∧ connects i = true
    ∧ (∀ j, (attempt ≤ j < i)%nat → connects j = false)
    ∧ t = slept + 5 * (Z.of_nat i - Z.of_nat attempt)
  | (SetupDb.NotReady e, t) =>
    (∀ j, (attempt ≤ j < attempt + remaining)%nat → connects j = false)
    ∧ t = slept + 5 * Z.of_nat remaining
    ∧ e = "Could not connect to Cassandra"
  end.
Proof.
  revert attempt slept.
  induction remaining as [|remaining IH]; intros attempt slept; cbn.
  { split; [lia|]. split; [lia|done]. }
  destruct (connects attempt) eqn:Hnow.
  { split; [lia|]. split; [done|]. split; [lia|lia]. }
  specialize (IH (S attempt) (slept + 5)).
  destruct (SetupDb.wait_from connects (S attempt) remaining (slept + 5))
    as [[i|e] t].
  - destruct IH as (Hi & Hc & Hbefore & ->). split; [lia|]. split; [done|].
    split; [|lia]. intros j Hj.
    destruct (decide (j = attempt)) as [->|]; [done|]. apply Hbefore. lia.
  - destruct IH as (Hnone & -> & ->). split; [|split; [lia|done]].
    intros j Hj.
    destruct (decide (j = attempt)) as [->|]; [done|]. apply Hnone. lia.
Qed.

(** X20.  [wait_for_cassandra] tries at most 10 times: it returns the
    cluster of the first attempt that connects, having slept 5 seconds for
    each attempt that failed before it, and when all 10 fail it raises
    "Could not connect to Cassandra" after 50 seconds of sleep. *)
Theorem wait_for_cassandra_bounded connects :
  match SetupDb.wait_for_cassandra connects with
  | (SetupDb.Ready i, slept) =>
    (i < 10)%nat ∧ connects i = true
    ∧ (∀ j, (j < i)%nat → connects j = false)
    ∧ slept = 5 * Z.of_nat i
  | (SetupDb.NotReady error, slept) =>
    (∀ j, (j < 10)%nat → connects j = false)
    ∧ slept = 50
    ∧ error = "Could not connect to Cassandra"
  end.
Proof.
  unfold SetupDb.wait_for_cassandra.
  pose proof (wait_from_spec connects 0 10 0) as Hspec.
  destruct (SetupDb.wait_from connects 0 10 0) as [[i|e] t].
  - destruct Hspec as (Hi & Hc & Hbefore & ->). split; [lia|]. split; [done|].
    split; [|lia]. intros j Hj. apply Hbefore. lia.
  - destruct Hspec as (Hnone & -> & ->). split; [|done].
    intros j Hj. apply Hnone. lia.
Qed.

Lemma create_table_lookup name t ts other :
  SetupDb.create_table name t ts !! other
  = match ts !! other with
    | Some t' => Some t'
    | None => if decide (name = other) then Some t else None
    end.
Proof.
  unfold SetupDb.create_table.
  destruct (ts !! name) as [t'|] eqn:Hname.
  - destruct (ts !! other) eqn:Hother; [done|].
    case_decide; [congruence|done].
  - rewrite lookup_insert. case_decide; subst.
    + by rewrite Hname.
    + by destruct (ts !! other).
Qed.

Lemma create_table_idem name t ts :
  SetupDb.create_table name t (SetupDb.create_table name t ts)
  = SetupDb.create_table name t ts.
Proof.
  apply map_eq. intros other. rewrite !create_table_lookup.
  destruct (ts !! other); [done|]. by case_decide.
Qed.

Lemma create_tables_lookup ts other :
  SetupDb.create_tables ts !! other
  = match ts !! other with
    | Some t => Some t
    | None =>
      if decide (other = "messages") then Some SetupDb.messages_table
      else if decide (other = "conversations_by_user")
           then Some SetupDb.conversations_by_user_table
      else if decide (other = "conversations")
           then Some SetupDb.conversations_table
      else None
    end.
Proof.
  unfold SetupDb.create_tables. rewrite !create_table_lookup.
  destruct (ts !! other); [done|].
  repeat case_decide; simplify_eq; done.
Qed.

Lemma create_tables_twice ts :
  SetupDb.create_tables (SetupDb.create_tables ts) = SetupDb.create_tables ts.
Proof.
  apply map_eq. intros other. rewrite !create_tables_lookup.
  destruct (ts !! other); [done|]. by repeat case_decide.
Qed.

(** X21.  [create_tables] can be run again: a second run changes
    nothing, a table that exists keeps its definition, and the three
    tables exist afterwards. *)
Theorem create_tables_idempotent ts :
  SetupDb.create_tables (SetupDb.create_tables ts) = SetupDb.create_tables ts
  ∧ (∀ name t, ts !! name = Some t →
               SetupDb.create_tables ts !! name = Some t)
  ∧ is_Some (SetupDb.create_tables ts !! "messages")
  ∧ is_Some (SetupDb.create_tables ts !! "conversations_by_user")
  ∧ is_Some (SetupDb.create_tables ts !! "conversations").
Proof.
  split; [|split].
  - apply create_tables_twice.
  - intros name t Hname. by rewrite create_tables_lookup, Hname.
  - rewrite !create_tables_lookup.
    repeat split; try (destruct (ts !! _); by eauto).
Qed.

(** X22.  The schema statements of [main] ([create_keyspace], then
    [create_tables] in that keyspace) can be run again without effect; they
    leave every other keyspace alone, and in a keyspace that exists they
    keep the replication settings and every table. *)
Theorem initialize_idempotent name db :
  SetupDb.initialize name (SetupDb.initialize name db)
  = SetupDb.initialize name db
  ∧ (∀ other ks, other ≠ name → db !! other = Some ks →
                 SetupDb.initialize name db !! other = Some ks)
  ∧ (∀ ks, db !! name = Some ks →
           ∃ ks', SetupDb.initialize name db !! name = Some ks'
                  ∧ SetupDb.replication_class ks'
                    = SetupDb.replication_class ks
                  ∧ SetupDb.replication_factor ks'
                    = SetupDb.replication_factor ks
                  ∧ ∀ table t, SetupDb.tables ks !! table = Some t →
                               SetupDb.tables ks' !! table = Some t).
Proof.
  assert (∀ db', is_Some (db' !! name) →
                 SetupDb.create_keyspace name db' = db') as Hks.
  { intros db' [ks Hks]. unfold SetupDb.create_keyspace. by rewrite Hks. }
  assert (is_Some (SetupDb.create_keyspace name db !! name)) as Hsome.
  { unfold SetupDb.create_keyspace.
    destruct (db !! name) eqn:Hname; [by rewrite Hname|].
    by rewrite lookup_insert_eq. }
  split; [|split].
  - unfold SetupDb.initialize at 1.
    rewrite Hks.
    + unfold SetupDb.initialize.
      apply map_eq. intros other. rewrite !lookup_alter.
      case_decide; [|done]. subst.
      destruct (SetupDb.create_keyspace other db !! other) as [ks|]; [|done].
      cbn. rewrite decide_True by done. cbn. by rewrite create_tables_twice.
    + unfold SetupDb.initialize. rewrite lookup_alter.
      case_decide; [|done]. by apply fmap_is_Some.
  - intros other ks Hne Hother. unfold SetupDb.initialize.
    rewrite lookup_alter_ne by done. unfold SetupDb.create_keyspace.
    destruct (db !! name); [done|]. by rewrite lookup_insert_ne.
  - intros ks Hname. unfold SetupDb.initialize.
    rewrite lookup_alter_eq. unfold SetupDb.create_keyspace. rewrite Hname.
    cbn. rewrite Hname. cbn. eexists. split; [done|]. cbn.
    split; [done|]. split; [done|].
    intros table t Ht. by rewrite create_tables_lookup, Ht.
Qed.

(** ** The test-data script *)

(** X23.  [generate_conversation_id] gives the same identifier
    for both orders of a pair, a number in [0, 100000000): the [hash] of
    [f"{lower}:{higher}"] modulo 100000000. *)
Theorem generate_conversation_id_consistent rt user1_id user2_id :
  generate_conversation_id rt user1_id user2_id
  = generate_conversation_id rt user2_id user1_id
  ∧ 0 ≤ generate_conversation_id rt user1_id user2_id < 100000000
  ∧ generate_conversation_id rt user1_id user2_id
    = Py.hash rt (pretty (Z.min user1_id user2_id) +:+ ":"
                  +:+ pretty (Z.max user1_id user2_id)) `mod` 100000000.
Proof.
  unfold generate_conversation_id, Py.fmt2.
  rewrite (Z.min_comm user2_id), (Z.max_comm user2_id).
  pose proof (Z.mod_pos_bound
                (Py.hash rt (pretty (Z.min user1_id user2_id) +:+ ":"
                             +:+ pretty (Z.max user1_id user2_id)))
                100000000 ltac:(lia)).
  rewrite Z.abs_eq by lia. done.
Qed.

(** X24.  A conversation that the test-data script inserts for a
    pair without one is the conversation that [create_or_get_conversation]
    then returns for that pair, in either order of the arguments: the live
    path finds it by its users, returns the script's identifier and writes
    nothing. *)
Theorem test_conversation_found rt user1_id user2_id created_at now c :
  Cassandra.rows_for_pair (store c) (Z.min user1_id user2_id)
    (Z.max user1_id user2_id) = [] →
  let c' := (insert_test_conversation rt user1_id user2_id created_at c).2 in
  let found :=
    ConversationModel.create_or_get_conversation rt now user1_id user2_id c' in
  let swapped :=
    ConversationModel.create_or_get_conversation rt now user2_id user1_id c' in
  found.1 = Conversation.of_row
              (test_conversation rt user1_id user2_id created_at)
  ∧ swapped.1 = found.1
  ∧ Conversation.id found.1 = generate_conversation_id rt user1_id user2_id
  ∧ store found.2 = store c'.
Proof.
  intros Hnone c' found swapped.
  assert (swapped = found) as ->
    by apply create_or_get_conversation_comm.
  subst found. rewrite create_or_get_conversation_run. cbn zeta.
  assert (Cassandra.rows_for_pair (store c') (Z.min user1_id user2_id)
            (Z.max user1_id user2_id)
          = [test_conversation rt user1_id user2_id created_at]) as ->.
  { subst c'. cbn. by apply rows_for_pair_put_conversation. }
  done.
Qed.

Lemma test_conversation_found_witness :
  Conversation.id
    (ConversationModel.create_or_get_conversation Sample.runtime
       1700000000000250 1 2
       (insert_test_conversation Sample.runtime 2 1 1690000000000000
          (connect empty_store)).2).1
  = generate_conversation_id Sample.runtime 2 1.
Proof.
  apply (test_conversation_found Sample.runtime 2 1 1690000000000000
           1700000000000250 (connect empty_store)).
  vm_compute. reflexivity.
Defined.
